(** * topcat_scatter_utils: density-coloured scatter plots

    A shallow embedding of [topcat_scatter_utils.py] and the properties
    of its three functions: [calculate_density], [truncate_colormap] and
    [plot_density_scatter].

    The module is glue around three libraries (scipy's [gaussian_kde],
    matplotlib's colormap registry and [Axes.scatter], numpy's array
    primitives).  Those libraries are not part of the module: they are
    the fields of the interface [Collaborators] below, and everything is
    stated for an arbitrary instance of it. *)

From Stdlib Require Import ZArith List Permutation Sorted.
From Stdlib Require Import Floats.SpecFloat.
From stdpp Require Import gmap strings list sorting pretty.

Open Scope Z_scope.

(** ** Numbers

    numpy [float64] scalars and Python [float]s are IEEE 754 binary64
    values: [spec_float] with precision 53 and maximal exponent 1024.
    Comparisons are the IEEE ones ([SFcompare]): every comparison with a
    NaN is false. *)

Module Float64.

Abbreviation float := spec_float.

Definition prec : Z := 53.
Definition emax : Z := 1024.

(** The values the module receives are canonical binary64 numbers. *)
Definition is_binary64 (f : float) : bool := valid_binary prec emax f.

(** [np.isfinite] *)
Definition isfinite (f : float) : bool :=
  match f with
  | S754_zero _ | S754_finite _ _ _ => true
  | S754_infinity _ | S754_nan => false
  end.

Definition isnan (f : float) : bool :=
  match f with S754_nan => true | _ => false end.

(** Python's [a <= b], [a < b] and [a >= b]. *)
Definition fle (a b : float) : bool := SFleb a b.
Definition fge (a b : float) : bool := SFleb b a.

(** The literals of the source and of its documented examples. *)
Definition zero : float := S754_zero false.
Definition neg_zero : float := S754_zero true.
Definition one : float := S754_finite false 4503599627370496 (-52).
Definition two : float := S754_finite false 4503599627370496 (-51).
Definition three : float := S754_finite false 6755399441055744 (-51).
Definition four : float := S754_finite false 4503599627370496 (-50).
Definition nan : float := S754_nan.
Definition inf : float := S754_infinity false.
(** 0.5, 0.4, 0.9, 0.1, 1.1 and -0.1 rounded to the nearest binary64. *)
Definition f0_5 : float := S754_finite false 4503599627370496 (-53).
Definition f0_4 : float := S754_finite false 7205759403792794 (-54).
Definition f0_9 : float := S754_finite false 8106479329266893 (-53).
Definition f0_1 : float := S754_finite false 7205759403792794 (-56).
Definition f1_1 : float := S754_finite false 4953959590107546 (-52).
Definition fm0_1 : float := S754_finite true 7205759403792794 (-56).

(** The order [ndarray.argsort] sorts by: IEEE [<=], with NaN placed
    after every other value. *)
Definition sort_le (a b : float) : bool := isnan b || fle a b.

End Float64.
Import Float64.

(** ** Exceptions and warnings *)

(** The five [ValueError]s the module raises, with the values their
    messages interpolate:
    - "x and y must have same length. Got x: {len(x)}, y: {len(y)}"
    - "Need at least 2 points for density calculation. Got {len(x)}"
    - "bandwidth must be positive. Got {bandwidth}"
    - "minval must be less than maxval. Got minval={minval}, maxval={maxval}"
    - "minval and maxval must be between 0 and 1. Got minval=..., maxval=..." *)
Inductive validation_error : Type :=
  | SameLength (len_x len_y : nat)
  | AtLeastTwoPoints (len_x : nat)
  | BandwidthPositive (bandwidth : float)
  | MinvalLessThanMaxval (minval maxval : float)
  | BetweenZeroAndOne (minval maxval : float).

(** What a call can raise.  [ValueError] is raised by the module's own
    checks (lines 50, 54, 57, 113 and 116); [TypeError] by a call that
    receives the same keyword twice; [IndexError] by indexing an array
    out of range; [Raised e] is an exception [e] coming out of a
    collaborator, whatever its Python class, passed on as it is. *)
Inductive exn (F : Type) : Type :=
  | ValueError (why : validation_error)
  | TypeError (keyword : string)
  | IndexError
  | Raised (e : F).
Arguments ValueError {F} why.
Arguments TypeError {F} keyword.
Arguments IndexError {F}.
Arguments Raised {F} e.

(** Values of the keyword options forwarded to [Axes.scatter]. *)
Inductive pyval : Type :=
  | PyNone
  | PyBool (b : bool)
  | PyFloat (f : float)
  | PyStr (s : string).

(** ** The collaborators

    [World] is the state of the process outside the module (matplotlib's
    registry, current figure and axes, random generators, ...).
    Collaborators that read or change it take it and give it back. *)
Class Collaborators : Type := {
  World : Type;
  Failure : Type;
  Colormap : Type;
  Color : Type;
  Axes : Type;
  Handle : Type;
  (** [gaussian_kde(np.vstack([x, y]), bw_method=bandwidth)(xy)] *)
  gaussian_kde : list float → list float → option float →
                 World → World * (Failure + list float);
  (** [z.argsort()] *)
  argsort : list float → list nat;
  (** [plt.get_cmap(name)] *)
  get_cmap : string → World → World * (Failure + Colormap);
  (** [cmap.name] *)
  cmap_name : Colormap → string;
  (** [cmap(positions)] *)
  cmap_call : Colormap → list float → list Color;
  (** [np.linspace(start, stop, num)] *)
  linspace : float → float → Z → Failure + list float;
  (** [mcolors.LinearSegmentedColormap.from_list(name, colors)] *)
  from_list : string → list Color → Colormap;
  (** [plt.gca()] *)
  gca : World → World * Axes;
  (** [ax.scatter(x, y, c=c, cmap=cmap, **kwargs)] *)
  scatter : Axes → list float → list float → list float → Colormap →
            gmap string pyval → World → World * (Failure + Handle);
}.

Section Effects.
Context {C : Collaborators}.

(** What an observer of a call sees, in order: the warnings it emits
    and the calls it makes to the stateful collaborators. *)
Inductive event : Type :=
  | Warn (message : string)
  | CallKde (x y : list float) (bandwidth : option float)
  | CallGetCmap (name : string)
  | CallGca
  | CallScatter (ax : Axes) (x y c : list float) (cmap : Colormap)
                (kwargs : gmap string pyval).

Record state : Type := State { world : World; trace : list event }.

Definition emit (ev : event) (s : state) : state :=
  State (world s) (trace s ++ [ev]).

(** *** The monad of the embedding: state and exceptions *)

Definition M (A : Type) : Type := state → state * (exn Failure + A).

Definition ret {A} (a : A) : M A := λ s, (s, inr a).
Definition raise {A} (e : exn Failure) : M A := λ s, (s, inl e).
Definition bind {A B} (m : M A) (k : A → M B) : M B :=
  λ s, match m s with
       | (s', inl e) => (s', inl e)
       | (s', inr a) => k a s'
       end.

(** A call to a collaborator: recorded, run on the world, its failure
    re-raised unchanged. *)
Definition call {A} (ev : event) (f : World → World * (Failure + A)) : M A :=
  λ s, let '(w, r) := f (world s) in
       (State w (trace s ++ [ev]),
        match r with inl e => inl (Raised e) | inr a => inr a end).

(** [warnings.warn(message)] *)
Definition warn (message : string) : M unit := λ s, (emit (Warn message) s, inr tt).

(** A pure collaborator that can fail. *)
Definition lift {A} (r : Failure + A) : M A :=
  match r with inl e => raise (Raised e) | inr a => ret a end.

(** Indexing that can fail with [IndexError]. *)
Definition index {A} (r : option A) : M A :=
  match r with None => raise IndexError | Some a => ret a end.

End Effects.

Declare Scope py_scope.
Delimit Scope py_scope with py.
Notation "x <- m ;; k" := (bind m (λ x, k))
  (at level 100, m at next level, right associativity) : py_scope.
Open Scope py_scope.

(** ** Array primitives used by the module *)

(** [a[mask]] for a boolean [mask] of the length of [a]. *)
Fixpoint select {A} (mask : list bool) (a : list A) : list A :=
  match mask, a with
  | b :: mask', v :: a' => if b then v :: select mask' a' else select mask' a'
  | _, _ => []
  end.

(** [a[idx]] for an integer index array: every index must be in range. *)
Definition gather {A} (idx : list nat) (a : list A) : option (list A) :=
  mapM (λ i, a !! i) idx.

(** [np.isfinite(x) & np.isfinite(y)] *)
Definition finite_mask (x y : list float) : list bool :=
  zip_with andb (isfinite <$> x) (isfinite <$> y).

(** [mask.all()] and [(~mask).sum()] *)
Definition mask_all (mask : list bool) : bool := forallb id mask.
Definition count_false (mask : list bool) : nat := length (filter (λ b, b = false) mask).

(** ** String formatting *)

(** [format(v, '.2f')]: the exact value of [v] rounded to the nearest
    multiple of 1/100, ties to even, printed with two decimals. *)
Definition round_half_even (num den : Z) : Z :=
  let q := num / den in
  match (2 * (num mod den) ?= den) with
  | Lt => q
  | Gt => q + 1
  | Eq => if Z.even q then q else q + 1
  end.

Definition two_digits (k : Z) : string :=
  if k <? 10 then "0" +:+ pretty k else pretty k.

Definition format_2f (v : float) : string :=
  match v with
  | S754_nan => "nan"
  | S754_infinity s => if s then "-inf" else "inf"
  | S754_zero s => if s then "-0.00" else "0.00"
  | S754_finite s m e =>
      let hundredths :=
        if 0 <=? e then Z.pos m * 2 ^ e * 100
        else round_half_even (Z.pos m * 100) (2 ^ (- e)) in
      (if s then "-" else "") +:+ pretty (hundredths / 100) +:+ "."
        +:+ two_digits (hundredths mod 100)
  end.

(** ['truncated({n},{a:.2f},{b:.2f})'.format(n=name, a=minval, b=maxval)] *)
Definition truncated_name (name : string) (minval maxval : float) : string :=
  "truncated(" +:+ name +:+ "," +:+ format_2f minval +:+ ","
    +:+ format_2f maxval +:+ ")".

Close Scope Z_scope.

(** [f"Removing {n_bad} points with NaN or infinite values"] *)
Definition removing_message (n_bad : nat) : string :=
  "Removing " +:+ pretty n_bad +:+ " points with NaN or infinite values".

(** [d.setdefault(k, v)] on a dict. *)
Definition setdefault (k : string) (v : pyval) (d : gmap string pyval)
  : gmap string pyval :=
  match d !! k with
  | Some _ => d
  | None => <[k:=v]> d
  end.

(** ** The three functions *)

Section Functions.
Context {C : Collaborators}.

(** The [cmap] argument: a name or a colormap object
    ([isinstance(cmap, str)]). *)
Inductive cmap_arg : Type :=
  | ByName (name : string)
  | ByObject (cmap : Colormap).

(** Lines 12-73.  [x] and [y] are the arrays [np.asarray] gives;
    [np.vstack([x, y])] is the pair of them. *)
Definition calculate_density (x y : list float) (bandwidth : option float)
  : M (list float * list float * list float) :=
  (* if len(x) != len(y): raise ValueError *)
  if negb (length x =? length y) then
    raise (ValueError (SameLength (length x) (length y)))
  (* if len(x) < 2: raise ValueError *)
  else if (length x <? 2) then
    raise (ValueError (AtLeastTwoPoints (length x)))
  else
    (* if bandwidth is not None and bandwidth <= 0: raise ValueError *)
    _ <- match bandwidth with
         | Some b => if fle b zero then raise (ValueError (BandwidthPositive b))
                     else ret tt
         | None => ret tt
         end ;;
    (* mask = np.isfinite(x) & np.isfinite(y); if not mask.all(): ... *)
    let mask := finite_mask x y in
    xy <- (if negb (mask_all mask) then
             let n_bad := count_false mask in
             _ <- warn (removing_message n_bad) ;;
             ret (select mask x, select mask y)
           else ret (x, y)) ;;
    let x := xy.1 in
    let y := xy.2 in
    (* z = gaussian_kde(xy, bw_method=bandwidth)(xy) *)
    z <- call (CallKde x y bandwidth) (gaussian_kde x y bandwidth) ;;
    (* idx = z.argsort(); x_sorted, y_sorted, density = x[idx], y[idx], z[idx] *)
    let idx := argsort z in
    x_sorted <- index (gather idx x) ;;
    y_sorted <- index (gather idx y) ;;
    density <- index (gather idx z) ;;
    ret (x_sorted, y_sorted, density).

(** Lines 75-122. *)
Definition truncate_colormap (cmap : cmap_arg) (minval maxval : float) (n : Z)
  : M Colormap :=
  (* if isinstance(cmap, str): cmap = plt.get_cmap(cmap) *)
  cmap <- match cmap with
          | ByName name => call (CallGetCmap name) (get_cmap name)
          | ByObject c => ret c
          end ;;
  (* if minval >= maxval: raise ValueError *)
  if fge minval maxval then
    raise (ValueError (MinvalLessThanMaxval minval maxval))
  (* if not (0 <= minval <= 1 and 0 <= maxval <= 1): raise ValueError *)
  else if negb (fle zero minval && fle minval one && (fle zero maxval && fle maxval one)) then
    raise (ValueError (BetweenZeroAndOne minval maxval))
  else
    positions <- lift (linspace minval maxval n) ;;
    ret (from_list (truncated_name (cmap_name cmap) minval maxval)
                   (cmap_call cmap positions)).

(** The call [ax.scatter(x, y, c=density, cmap=cmap, **kwargs)]: a key
    of [kwargs] that repeats one of the two keywords written at the
    call raises [TypeError] before [scatter] is entered. *)
Definition scatter_call (ax : Axes) (x y density : list float)
    (cmap : Colormap) (kwargs : gmap string pyval) : M Handle :=
  if bool_decide (is_Some (kwargs !! "c")) then raise (TypeError "c")
  else if bool_decide (is_Some (kwargs !! "cmap")) then raise (TypeError "cmap")
  else call (CallScatter ax x y density cmap kwargs)
            (scatter ax x y density cmap kwargs).

(** Lines 124-175.  The keyword options [**scatter_kwargs] are a dict
    made for the call; the named parameters never appear in it. *)
Definition plot_density_scatter (x y : list float) (bandwidth : option float)
    (cmap : cmap_arg) (minval maxval : float) (n : Z) (ax : option Axes)
    (scatter_kwargs : gmap string pyval) : M Handle :=
  sorted <- calculate_density x y bandwidth ;;
  let '(x_sorted, y_sorted, density) := sorted in
  truncated_cmap <- truncate_colormap cmap minval maxval n ;;
  (* if ax is None: ax = plt.gca() *)
  ax <- match ax with
        | None => call CallGca (λ w, let '(w', a) := gca w in (w', inr a))
        | Some a => ret a
        end ;;
  (* scatter_kwargs.setdefault('edgecolor', 'None') *)
  let scatter_kwargs := setdefault "edgecolor" (PyStr "None") scatter_kwargs in
  scatter_call ax x_sorted y_sorted density truncated_cmap scatter_kwargs.

End Functions.

(** ** Stand-ins for the collaborators

    A small executable instance of [Collaborators], used to run the
    functions on concrete inputs.  Densities count the points that
    coincide with a point; colours are named by the gradient and the
    position they were sampled at. *)
Module Demo.

(** The binary64 value of a natural number below 2^53. *)
Definition of_nat (k : nat) : float :=
  match k with
  | O => zero
  | S _ =>
      let p := Pos.of_nat k in
      let d := Z.log2 (Z.pos p) in
      S754_finite false (Pos.shiftl p (Z.to_N (52 - d))) (d - 52)%Z
  end.

Definition same_point (p q : float * float) : bool :=
  SFeqb p.1 q.1 && SFeqb p.2 q.2.

Definition demo_kde (x y : list float) (bandwidth : option float) (w : nat)
  : nat * (string + list float) :=
  if (length x <? 2) then (w, inl "LinAlgError")
  else
    let pts := zip x y in
    (w, inr ((λ p, of_nat (length (List.filter (same_point p) pts))) <$> pts)).

Fixpoint insert_by (z : list float) (i : nat) (sorted : list nat) : list nat :=
  match sorted with
  | [] => [i]
  | j :: rest =>
      if sort_le (default nan (z !! j)) (default nan (z !! i))
      then j :: insert_by z i rest
      else i :: sorted
  end.

(** A stable insertion sort of the indices. *)
Definition demo_argsort (z : list float) : list nat :=
  foldl (λ acc i, insert_by z i acc) [] (seq 0 (length z)).

Inductive demo_cmap : Type :=
  | Registered (name : string)
  | Listed (name : string) (colors : list (string * float)).

Definition demo_name (c : demo_cmap) : string :=
  match c with Registered n | Listed n _ => n end.

Definition demo_get_cmap (name : string) (w : nat) : nat * (string + demo_cmap) :=
  if bool_decide (name ∈ ["Reds"; "viridis"]) then (w, inr (Registered name))
  else (w, inl "ValueError: not a valid value for cmap").

(** numpy's [linspace(start, stop, num)] with its defaults: with
    [div = num - 1], [delta = stop - start] and [step = delta / div], the
    points are [i * step + start] (or [i / div * delta + start] when
    [step] is 0, [i * delta + start] when [div] is 0), and the last one
    is set to [stop] when [num > 1]. *)
Definition demo_linspace (start stop : float) (num : Z) : string + list float :=
  if (num <? 0)%Z then inl "ValueError: Number of samples must be non-negative"
  else
    let n := Z.to_nat num in
    let div := of_nat (n - 1) in
    let delta := SFsub prec emax stop start in
    let step := SFdiv prec emax delta div in
    let y i :=
      if bool_decide (0 < n - 1) then
        if SFeqb step zero then SFmul prec emax (SFdiv prec emax (of_nat i) div) delta
        else SFmul prec emax (of_nat i) step
      else SFmul prec emax (of_nat i) delta in
    inr ((λ i, if bool_decide (1 < n ∧ i = n - 1) then stop
               else SFadd prec emax (y i) start)
           <$> seq 0 n).

#[export] Instance demo : Collaborators := {|
  World := nat;
  Failure := string;
  Colormap := demo_cmap;
  Color := string * float;
  Axes := nat;
  Handle := nat;
  gaussian_kde := demo_kde;
  argsort := demo_argsort;
  get_cmap := demo_get_cmap;
  cmap_name := demo_name;
  cmap_call := λ c positions, (λ p, (demo_name c, p)) <$> positions;
  linspace := demo_linspace;
  from_list := Listed;
  gca := λ w, (w, 0);
  scatter := λ ax x y c cmap kwargs w, (S w, inr w);
|}.

(** The same stand-ins around another estimator. *)
Definition demo_with_kde
    (kde : list float → list float → option float → nat → nat * (string + list float))
  : Collaborators := {|
  World := nat;
  Failure := string;
  Colormap := demo_cmap;
  Color := string * float;
  Axes := nat;
  Handle := nat;
  gaussian_kde := kde;
  argsort := demo_argsort;
  get_cmap := demo_get_cmap;
  cmap_name := demo_name;
  cmap_call := λ c positions, (λ p, (demo_name c, p)) <$> positions;
  linspace := demo_linspace;
  from_list := Listed;
  gca := λ w, (w, 0);
  scatter := λ ax x y c cmap kwargs w, (S w, inr w);
|}.

(** An estimator that answers NaN for every point. *)
Definition nan_kde (x y : list float) (bandwidth : option float) (w : nat)
  : nat * (string + list float) :=
  (w, inr ((λ _, nan) <$> x)).


(** The process before the call: nothing drawn, nothing observed. *)
Definition s0 : state := State (0 : World) [].

(** The process after the events [evs], nothing drawn yet. *)
Definition after (evs : list event) : state := State (0 : World) evs.

End Demo.


(** ** What the properties are stated with *)

(** A pair of coordinates is kept when both are finite. *)
Definition finite_pair (p : float * float) : bool := isfinite p.1 && isfinite p.2.


(** The densities are sorted for Python's [<=]. *)
Definition non_decreasing (d : list float) : Prop :=
  StronglySorted (λ a b, fle a b = true) d.

(** What [argsort] promises for one array: a permutation of the indices
    that puts the array in sorting order. *)
Definition sorts (z : list float) (idx : list nat) : Prop :=
  idx ≡ₚ seq 0 (length z) ∧
  ∃ d, gather idx z = Some d ∧ StronglySorted (λ a b, sort_le a b = true) d.

(** [bandwidth is not None and bandwidth <= 0] *)
Definition bandwidth_rejected (bandwidth : option float) : bool :=
  match bandwidth with Some b => fle b zero | None => false end.

(** The range checks of [truncate_colormap]. *)
Definition in_unit_interval (v : float) : bool := fle zero v && fle v one.
Definition range_rejected (minval maxval : float) : bool :=
  fge minval maxval || negb (in_unit_interval minval && in_unit_interval maxval).

Section Vocabulary.
Context {C : Collaborators}.

(** The two arrays after the non-finite pairs are removed. *)
Definition cleaned (x y : list float) : list float * list float :=
  (select (finite_mask x y) x, select (finite_mask x y) y).

(** The warnings of the cleaning step. *)
Definition cleaning_warnings (x y : list float) : list event :=
  if mask_all (finite_mask x y) then []
  else [Warn (removing_message (count_false (finite_mask x y)))].

(** The end of [calculate_density]: the three arrays indexed by
    [argsort z]. *)
Definition reordered (x y z : list float)
  : exn Failure + list float * list float * list float :=
  match gather (argsort z) x, gather (argsort z) y, gather (argsort z) z with
  | Some x_sorted, Some y_sorted, Some density => inr (x_sorted, y_sorted, density)
  | _, _, _ => inl IndexError
  end.

Definition raises_ValueError {A} (r : state * (exn Failure + A)) : Prop :=
  ∃ why, r.2 = inl (ValueError why).

(** Events on the drawing surface. *)
Definition touches_surface (ev : event) : bool :=
  match ev with
  | CallGca | CallScatter _ _ _ _ _ _ => true
  | _ => false
  end.

(** [resolved cmap s c s'] : resolving the [cmap] argument in state [s]
    gives the colormap [c] and the state [s']. *)
Definition resolved (cmap : cmap_arg) (s : state) (c : Colormap) (s' : state) : Prop :=
  match cmap with
  | ByObject c' => c' = c ∧ s' = s
  | ByName name => call (CallGetCmap name) (get_cmap name) s = (s', inr c)
  end.

(** The [ValueError] of a rejected range. *)
Definition range_error (minval maxval : float) : validation_error :=
  if fge minval maxval then MinvalLessThanMaxval minval maxval
  else BetweenZeroAndOne minval maxval.

(** [truncate_colormap] once the colormap [c] is at hand: the range
    checks, then the sampling and the new colormap. *)
Definition truncated (c : Colormap) (minval maxval : float) (n : Z)
  : exn Failure + Colormap :=
  if range_rejected minval maxval then inl (ValueError (range_error minval maxval))
  else match linspace minval maxval n with
       | inl e => inl (Raised e)
       | inr positions =>
           inr (from_list (truncated_name (cmap_name c) minval maxval)
                          (cmap_call c positions))
       end.

(** The drawing surface of [plot_density_scatter]: [ax] when given,
    [plt.gca()] otherwise; with the state after resolving it. *)
Definition surface (ax : option Axes) (s : state) : state * Axes :=
  match ax with
  | Some a => (s, a)
  | None => let '(w, a) := gca (world s) in (State w (trace s ++ [CallGca]), a)
  end.

(** From [s] to [s'] only events away from the drawing surface happened. *)
Definition surface_untouched (s s' : state) : Prop :=
  ∃ evs, trace s' = trace s ++ evs ∧ Forall (λ ev, touches_surface ev = false) evs.

End Vocabulary.

(** ** Vocabulary of the further properties *)

(** [b <= 0] on binary64 values: the zeros, the negative numbers and
    minus infinity. *)
Definition nonpositive (b : float) : bool :=
  match b with
  | S754_zero _ | S754_finite true _ _ | S754_infinity true => true
  | _ => false
  end.

(** A string that ends with a point and two decimal digits. *)
Definition is_digit (a : Ascii.ascii) : bool :=
  (48 <=? Ascii.nat_of_ascii a) && (Ascii.nat_of_ascii a <=? 57).

Definition two_digit_string (s : string) : bool :=
  match s with
  | String d1 (String d2 EmptyString) => is_digit d1 && is_digit d2
  | _ => false
  end.

Definition two_decimals (s : string) : Prop :=
  ∃ whole frac, s = whole +:+ "." +:+ frac ∧ two_digit_string frac = true.





(** The keyword options of [scatter] that set the colour of the marker
    edges: [edgecolor] and its aliases. *)
Definition edge_color_options : list string := ["edgecolor"; "edgecolors"; "ec"].

Section Further_vocabulary.
Context {C : Collaborators}.

(** The events that happened between the states [s] and [s']. *)
Definition new_events (s s' : state) : list event :=
  drop (length (trace s)) (trace s').

Definition is_scatter (ev : event) : bool :=
  match ev with CallScatter _ _ _ _ _ _ => true | _ => false end.

(** The checks of [calculate_density] reject the input. *)
Definition density_input_rejected (x y : list float) (bandwidth : option float) : Prop :=
  length x ≠ length y ∨ length x < 2 ∨ bandwidth_rejected bandwidth = true.

(** The defaults of the signatures:
    [bandwidth=None, cmap='Reds', minval=0.4, maxval=0.9, n=256, ax=None]
    and no keyword option. *)
Definition default_bandwidth : option float := None.
Definition default_cmap : cmap_arg := ByName "Reds".
Definition default_minval : float := f0_4.
Definition default_maxval : float := f0_9.
Definition default_n : Z := 256.
Definition default_ax : option Axes := None.
Definition no_options : gmap string pyval := ∅.

End Further_vocabulary.

(** ** Facts about the array primitives *)

Section Arrays.
Context {A B : Type}.
Implicit Types (mask : list bool) (a : list A) (b : list B) (idx : list nat).

Lemma select_length_le mask a : length (select mask a) ≤ length a.
Proof.
  revert a. induction mask as [|m mask IH]; intros [|v a]; simpl; try lia.
  destruct m; simpl; specialize (IH a); lia.
Qed.

Lemma select_all mask a :
  mask_all mask = true → length mask = length a → select mask a = a.
Proof.
  revert a. induction mask as [|m mask IH]; intros [|v a]; simpl; try done.
  destruct m; simpl; [|done]. intros Hall [= Hlen]. by rewrite IH.
Qed.

Lemma select_count mask a :
  length mask = length a →
  length (select mask a) + count_false mask = length a.
Proof.
  unfold count_false. revert a.
  induction mask as [|m mask IH]; intros [|v a]; simpl; try done.
  intros [= Hlen]. specialize (IH a Hlen). rewrite filter_cons.
  destruct m; case_decide; simpl; try done; lia.
Qed.

Lemma select_zip mask a b :
  select mask (zip a b) = zip (select mask a) (select mask b).
Proof.
  revert a b. induction mask as [|m mask IH]; intros [|v a] [|u b]; simpl; try done.
  - by destruct m, (select mask a).
  - destruct m; simpl; by rewrite IH.
Qed.

Lemma select_filter (f : A → bool) a : select (f <$> a) a = List.filter f a.
Proof. induction a as [|v a IH]; csimpl; [done|]. destruct (f v); by rewrite IH. Qed.

Lemma gather_length idx a a' : gather idx a = Some a' → length a' = length idx.
Proof. intros H. symmetry. by eapply length_mapM. Qed.

Lemma gather_from pre a :
  mapM (λ i, (pre ++ a) !! i) (seq (length pre) (length a)) = Some a.
Proof.
  revert pre. induction a as [|v a IH]; intros pre; simpl; [done|].
  rewrite list_lookup_middle by done. simpl.
  specialize (IH (pre ++ [v])).
  rewrite length_app, <- app_assoc in IH. simpl in IH.
  rewrite Nat.add_1_r in IH. by rewrite IH.
Qed.

Lemma gather_all a : gather (seq 0 (length a)) a = Some a.
Proof. apply (gather_from [] a). Qed.

Lemma gather_Permutation idx idx' a a' :
  idx ≡ₚ idx' → gather idx' a = Some a' → ∃ a'', gather idx a = Some a'' ∧ a'' ≡ₚ a'.
Proof.
  unfold gather. intros Hp. revert a'.
  induction Hp as [|i l l' Hp IH|i j l|l l' l'' Hp1 IH1 Hp2 IH2]; intros a'; simpl.
  - intros [= <-]. by exists [].
  - destruct (a !! i) as [v|]; simpl; [|done].
    destruct (mapM _ l') as [k|] eqn:Hk; simpl; [|done]. intros [= <-].
    destruct (IH k eq_refl) as (k' & -> & Hk'). simpl. exists (v :: k').
    split; [done|]. by constructor.
  - destruct (a !! i) as [v|]; simpl; [|done].
    destruct (a !! j) as [u|]; simpl; [|done].
    destruct (mapM _ l) as [k|]; simpl; [|done]. intros [= <-].
    exists (u :: v :: k). split; [done|]. constructor.
  - intros H. destruct (IH2 _ H) as (k & Hk & Hk').
    destruct (IH1 _ Hk) as (k' & ? & ?). exists k'. split; [done|]. by etrans.
Qed.

Lemma gather_zip idx a b a' b' :
  gather idx a = Some a' → gather idx b = Some b' →
  gather idx (zip a b) = Some (zip a' b').
Proof.
  unfold gather. revert a' b'. induction idx as [|i idx IH]; intros a' b'; simpl.
  - by intros [= <-] [= <-].
  - destruct (a !! i) as [v|] eqn:Hv; simpl; [|done].
    destruct (mapM _ idx) as [k|]; simpl; [|done]. intros [= <-].
    destruct (b !! i) as [u|] eqn:Hu; simpl; [|done].
    destruct (mapM (λ i, b !! i) idx) as [k'|]; simpl; [|done]. intros [= <-].
    rewrite (IH k k') by done. simpl.
    assert (zip a b !! i = Some (v, u)) as ->; [|done].
    rewrite lookup_zip_with, Hv. simpl. by rewrite Hu.
Qed.

(** Indexing by a permutation of the indices succeeds and permutes. *)
Lemma gather_sorted_indices idx a :
  idx ≡ₚ seq 0 (length a) → ∃ a', gather idx a = Some a' ∧ a' ≡ₚ a.
Proof. intros Hp. eapply gather_Permutation; [done|]. apply gather_all. Qed.

End Arrays.

Lemma finite_mask_pairs (x y : list float) :
  finite_mask x y = finite_pair <$> zip x y.
Proof.
  unfold finite_mask. revert y.
  induction x as [|a x IH]; intros [|b y]; csimpl; try done.
  f_equal. apply IH.
Qed.

Lemma finite_mask_length (x y : list float) :
  length x = length y → length (finite_mask x y) = length x.
Proof.
  intros H. rewrite finite_mask_pairs, length_fmap, length_zip_with. lia.
Qed.


(** A sorted array without NaN is non-decreasing. *)
Lemma sorted_non_decreasing (d : list float) :
  Forall (λ v, isnan v = false) d →
  StronglySorted (λ a b, sort_le a b = true) d → non_decreasing d.
Proof.
  unfold non_decreasing. intros Hnan Hs. induction Hs as [|a d Hs IH Hall].
  - constructor.
  - inversion Hnan as [|? ? Ha Hd]; subst. constructor; [by apply IH|].
    rewrite Forall_forall in Hall, Hd. apply Forall_forall. intros v Hv.
    specialize (Hall v Hv). unfold sort_le in Hall.
    by rewrite (Hd v Hv) in Hall.
Qed.

Lemma gather_elem {A} (idx : list nat) (a a' : list A) :
  gather idx a = Some a' → Forall (λ v, v ∈ a) a'.
Proof.
  unfold gather. intros H. apply mapM_Some_1 in H.
  induction H as [|i v idx a' Hv _ IH]; constructor; [|done].
  by eapply list_elem_of_lookup_2.
Qed.

(** ** [calculate_density], step by step *)

Section Density.
Context {C : Collaborators}.
Implicit Types (x y z : list float) (bandwidth : option float) (s : state).

Lemma calculate_density_lengths_differ x y bandwidth s :
  length x ≠ length y →
  calculate_density x y bandwidth s
  = (s, inl (ValueError (SameLength (length x) (length y)))).
Proof.
  intros H. unfold calculate_density.
  by destruct (Nat.eqb_spec (length x) (length y)).
Qed.

Lemma calculate_density_too_few x y bandwidth s :
  length x = length y → length x < 2 →
  calculate_density x y bandwidth s
  = (s, inl (ValueError (AtLeastTwoPoints (length x)))).
Proof.
  intros Hxy H. unfold calculate_density.
  destruct (Nat.eqb_spec (length x) (length y)); [simpl|done].
  by destruct (Nat.ltb_spec (length x) 2); [|lia].
Qed.

Lemma calculate_density_bad_bandwidth x y b s :
  length x = length y → 2 ≤ length x → fle b zero = true →
  calculate_density x y (Some b) s
  = (s, inl (ValueError (BandwidthPositive b))).
Proof.
  intros Hxy Hlen Hb. unfold calculate_density.
  destruct (Nat.eqb_spec (length x) (length y)); [simpl|done].
  destruct (Nat.ltb_spec (length x) 2); [lia|].
  unfold bind. by rewrite Hb.
Qed.

(** Past the three checks: clean, warn, estimate, reorder. *)
Lemma calculate_density_accepted x y bandwidth s :
  length x = length y → 2 ≤ length x → bandwidth_rejected bandwidth = false →
  calculate_density x y bandwidth s
  = let '(cx, cy) := cleaned x y in
    let '(w, r) := gaussian_kde cx cy bandwidth (world s) in
    (State w (trace s ++ cleaning_warnings x y ++ [CallKde cx cy bandwidth]),
     match r with
     | inl e => inl (Raised e)
     | inr z => reordered cx cy z
     end).
Proof.
  intros Hxy Hlen Hb. unfold calculate_density, cleaned, cleaning_warnings.
  destruct (Nat.eqb_spec (length x) (length y)); [simpl|done].
  destruct (Nat.ltb_spec (length x) 2); [lia|].
  assert (Hm : length (finite_mask x y) = length x) by by apply finite_mask_length.
  assert (bind (match bandwidth with
                | Some b => if fle b zero
                            then raise (ValueError (BandwidthPositive b))
                            else ret tt
                | None => ret tt
                end) = λ k, k tt) as ->.
  { destruct bandwidth as [b|]; simpl in Hb; [rewrite Hb|]; done. }
  destruct (mask_all (finite_mask x y)) eqn:Hall; simpl.
  - rewrite !select_all by (done || congruence).
    unfold bind, ret, call, reordered. simpl.
    destruct (gaussian_kde x y bandwidth (world s)) as [w [err|z]]; [done|].
    unfold index.
    by destruct (gather (argsort z) x), (gather (argsort z) y), (gather (argsort z) z).
  - unfold bind, ret, call, warn, emit, reordered. simpl.
    destruct (gaussian_kde _ _ bandwidth (world s)) as [w [err|z]];
      rewrite <- app_assoc; [done|].
    unfold index.
    by destruct (gather (argsort z) _), (gather (argsort z) _), (gather (argsort z) z).
Qed.

Lemma calculate_density_accepted_no_ValueError x y bandwidth s :
  length x = length y → 2 ≤ length x → bandwidth_rejected bandwidth = false →
  ¬ raises_ValueError (calculate_density x y bandwidth s).
Proof.
  intros Hxy Hlen Hb [why Hwhy].
  rewrite calculate_density_accepted in Hwhy by done.
  destruct (cleaned x y) as [cx cy].
  destruct (gaussian_kde cx cy bandwidth (world s)) as [w [err|z]];
    simpl in Hwhy; [done|].
  unfold reordered in Hwhy.
  by destruct (gather (argsort z) cx), (gather (argsort z) cy), (gather (argsort z) z).
Qed.

Lemma calculate_density_returns_accepted x y bandwidth s s' v :
  calculate_density x y bandwidth s = (s', inr v) →
  length x = length y ∧ 2 ≤ length x ∧ bandwidth_rejected bandwidth = false.
Proof.
  intros H.
  destruct (decide (length x = length y)) as [Hxy|Hxy];
    [|by rewrite calculate_density_lengths_differ in H].
  destruct (decide (length x < 2)) as [Hlen|Hlen];
    [by rewrite calculate_density_too_few in H|].
  destruct (bandwidth_rejected bandwidth) eqn:Hb; [|repeat split; (done || lia)].
  destruct bandwidth as [b|]; [simpl in Hb|done].
  by rewrite calculate_density_bad_bandwidth in H by (done || lia).
Qed.

Lemma reordered_elems x y z x_sorted y_sorted density :
  reordered x y z = inr (x_sorted, y_sorted, density) →
  length x_sorted = length density ∧ length y_sorted = length density
  ∧ Forall (λ p, p ∈ zip x y) (zip x_sorted y_sorted)
  ∧ Forall (λ t, t ∈ zip x (zip y z)) (zip x_sorted (zip y_sorted density)).
Proof.
  unfold reordered.
  destruct (gather (argsort z) x) as [xs|] eqn:Hx; [|done].
  destruct (gather (argsort z) y) as [ys|] eqn:Hy; [|done].
  destruct (gather (argsort z) z) as [d|] eqn:Hd; [|done].
  intros [= <- <- <-].
  rewrite (gather_length _ _ _ Hx), (gather_length _ _ _ Hy), (gather_length _ _ _ Hd).
  repeat split.
  - eapply gather_elem, gather_zip; done.
  - eapply gather_elem, gather_zip; [done|]. by apply gather_zip.
Qed.

End Density.


Lemma cleaned_pairs `{Collaborators} (x y : list float) :
  zip (cleaned x y).1 (cleaned x y).2 = List.filter finite_pair (zip x y).
Proof.
  unfold cleaned. simpl.
  by rewrite <- select_zip, finite_mask_pairs, select_filter.
Qed.

Lemma cleaned_lengths `{Collaborators} (x y : list float) :
  length x = length y →
  length (cleaned x y).2 = length (cleaned x y).1
  ∧ length (cleaned x y).1 = length (List.filter finite_pair (zip x y))
  ∧ length (cleaned x y).1 ≤ length x.
Proof.
  intros Hxy. rewrite <- cleaned_pairs. unfold cleaned. simpl.
  pose proof (finite_mask_length x y Hxy) as Hm.
  pose proof (select_count (finite_mask x y) x Hm).
  pose proof (select_count (finite_mask x y) y ltac:(congruence)).
  rewrite length_zip_with. lia.
Qed.

Section Density_properties.
Context {C : Collaborators}.
Implicit Types (x y z : list float) (bandwidth : option float) (s : state).

Lemma reordered_sorts x y z :
  length x = length z → length y = length z → sorts z (argsort z) →
  ∃ x_sorted y_sorted density,
    reordered x y z = inr (x_sorted, y_sorted, density)
    ∧ length x_sorted = length z ∧ length y_sorted = length z
    ∧ length density = length z
    ∧ StronglySorted (λ a b, sort_le a b = true) density
    ∧ density ≡ₚ z
    ∧ zip x_sorted (zip y_sorted density) ≡ₚ zip x (zip y z).
Proof.
  intros Hx Hy (Hperm & d & Hd & Hsorted). unfold reordered.
  destruct (gather_sorted_indices (argsort z) x) as (xs & Hxs & _); [by rewrite Hx|].
  destruct (gather_sorted_indices (argsort z) y) as (ys & Hys & _); [by rewrite Hy|].
  destruct (gather_sorted_indices (argsort z) z) as (d' & Hd' & Hdz); [done|].
  assert (d' = d) as -> by congruence.
  rewrite Hxs, Hys, Hd. exists xs, ys, d.
  pose proof (Permutation_length Hperm) as Hn. rewrite length_seq in Hn.
  repeat split; try (erewrite gather_length by done; done); try done.
  destruct (gather_sorted_indices (argsort z) (zip x (zip y z))) as (t & Ht & Hperm').
  { rewrite !length_zip_with. by replace (length x `min` (length y `min` length z))
      with (length z) by lia. }
  rewrite (gather_zip _ _ _ _ _ Hxs (gather_zip _ _ _ _ _ Hys Hd)) in Ht.
  by injection Ht as <-.
Qed.

(** C1: on valid input, when the kernel-density estimator answers with
    one non-NaN density per cleaned point and [argsort] sorts it,
    [calculate_density] returns three arrays of one length, at most
    [len(x)], with non-decreasing densities; the returned triples are a
    permutation of the cleaned pairs with their densities, and the
    cleaned pairs are the finite pairs of the input. *)
Theorem calculate_density_sorted_permutation x y bandwidth s w z :
  length x = length y → 2 ≤ length x → bandwidth_rejected bandwidth = false →
  gaussian_kde (cleaned x y).1 (cleaned x y).2 bandwidth (world s) = (w, inr z) →
  length z = length (cleaned x y).1 →
  Forall (λ v, isnan v = false) z →
  sorts z (argsort z) →
  ∃ x_sorted y_sorted density,
    (calculate_density x y bandwidth s).2 = inr (x_sorted, y_sorted, density)
    ∧ length x_sorted = length density
    ∧ length y_sorted = length density
    ∧ length density ≤ length x
    ∧ non_decreasing density
    ∧ zip x_sorted (zip y_sorted density)
        ≡ₚ zip (cleaned x y).1 (zip (cleaned x y).2 z)
    ∧ zip (cleaned x y).1 (cleaned x y).2 = List.filter finite_pair (zip x y).
Proof.
  intros Hxy Hlen Hb Hkde Hz Hnan Hsorts.
  rewrite calculate_density_accepted by done.
  destruct (cleaned_lengths x y Hxy) as (Hcy & _ & Hcx).
  destruct (cleaned x y) as [cx cy] eqn:Hc. simpl in *. rewrite Hkde. simpl.
  destruct (reordered_sorts cx cy z) as (xs & ys & d & -> & Hxs & Hys & Hd & Hs & Hp & Hp');
    [congruence..|done|].
  exists xs, ys, d. repeat split; try congruence; try lia; try done.
  - apply sorted_non_decreasing; [|done].
    eapply Permutation_Forall; [symmetry; apply Hp|done].
  - change cx with (cx, cy).1 at 1. change cy with (cx, cy).2 at 2.
    rewrite <- Hc. apply cleaned_pairs.
Qed.

(** C2: [calculate_density] raises a [ValueError] exactly when the
    lengths differ, or fewer than two points are given, or a bandwidth
    is given and is [<= 0]; with equal lengths of at least two and
    [bandwidth=None] it raises none. *)
Theorem calculate_density_validation x y bandwidth s :
  (raises_ValueError (calculate_density x y bandwidth s)
     ↔ length x ≠ length y ∨ length x < 2
       ∨ ∃ b, bandwidth = Some b ∧ fle b zero = true)
  ∧ (length x = length y → 2 ≤ length x →
     ¬ raises_ValueError (calculate_density x y None s)).
Proof.
  pose proof (λ bw, calculate_density_accepted_no_ValueError x y bw s) as Hok.
  split; [|by intros; apply Hok].
  destruct (decide (length x = length y)) as [Hxy|Hxy].
  2: { rewrite calculate_density_lengths_differ by done.
       split; [by left|]. intros _. by eexists. }
  destruct (decide (length x < 2)) as [Hlen|Hlen].
  { rewrite calculate_density_too_few by done.
    split; [by right; left|]. intros _. by eexists. }
  destruct (bandwidth_rejected bandwidth) eqn:Hb.
  - destruct bandwidth as [b|]; [simpl in Hb|done].
    rewrite calculate_density_bad_bandwidth by (done || lia).
    split; [|by eexists]. intros _. right; right. by exists b.
  - split; [intros Hr; exfalso; apply (Hok bandwidth); (done || lia)|].
    intros [?|[?|(b & -> & Hle)]]; try done. simpl in Hb. congruence.
Qed.

End Density_properties.

(** ** The text of the warning *)




Section Cleaning_properties.
Context {C : Collaborators}.
Implicit Types (x y z : list float) (bandwidth : option float) (s : state).


Lemma calculate_density_trace x y bandwidth s :
  length x = length y → 2 ≤ length x → bandwidth_rejected bandwidth = false →
  trace (calculate_density x y bandwidth s).1
  = trace s ++ cleaning_warnings x y
      ++ [CallKde (cleaned x y).1 (cleaned x y).2 bandwidth].
Proof.
  intros. rewrite calculate_density_accepted by done.
  destruct (cleaned x y) as [cx cy]. simpl.
  by destruct (gaussian_kde cx cy bandwidth (world s)).
Qed.


(** C9: when the kernel-density estimator answers the same whatever the
    state of the process, so does [calculate_density]: from any two
    states, and in particular in two successive calls, it returns the
    same arrays (or raises the same exception). *)
Theorem calculate_density_deterministic x y bandwidth :
  (∀ w1 w2, (gaussian_kde (cleaned x y).1 (cleaned x y).2 bandwidth w1).2
            = (gaussian_kde (cleaned x y).1 (cleaned x y).2 bandwidth w2).2) →
  (∀ s1 s2, (calculate_density x y bandwidth s1).2
            = (calculate_density x y bandwidth s2).2)
  ∧ (∀ s, (calculate_density x y bandwidth (calculate_density x y bandwidth s).1).2
          = (calculate_density x y bandwidth s).2).
Proof.
  intros Hdet.
  assert (Hany : ∀ s1 s2, (calculate_density x y bandwidth s1).2
                          = (calculate_density x y bandwidth s2).2);
    [|by split].
  intros s1 s2.
  destruct (decide (length x = length y)) as [Hxy|Hxy];
    [|by rewrite !calculate_density_lengths_differ].
  destruct (decide (length x < 2)) as [Hlen|Hlen];
    [by rewrite !calculate_density_too_few|].
  destruct (bandwidth_rejected bandwidth) eqn:Hb.
  - destruct bandwidth as [b|]; [simpl in Hb|done].
    by rewrite !calculate_density_bad_bandwidth by (done || lia).
  - rewrite !calculate_density_accepted by (done || lia).
    specialize (Hdet (world s1) (world s2)).
    destruct (cleaned x y) as [cx cy]. simpl in Hdet.
    destruct (gaussian_kde cx cy bandwidth (world s1)) as [w1 r1].
    destruct (gaussian_kde cx cy bandwidth (world s2)) as [w2 r2].
    simpl in *. by subst.
Qed.

(** C10: with equal lengths of at least two but fewer than two finite
    pairs, no [ValueError] for the number of points is raised, and with
    an accepted bandwidth none at all: the estimator is called on the
    cleaned arrays, which hold fewer than two points, and what it
    answers or raises is the result. *)
Theorem calculate_density_counts_before_cleaning x y bandwidth s :
  length x = length y → 2 ≤ length x →
  length (List.filter finite_pair (zip x y)) < 2 →
  (∀ n, (calculate_density x y bandwidth s).2 ≠ inl (ValueError (AtLeastTwoPoints n)))
  ∧ (bandwidth_rejected bandwidth = false →
     ¬ raises_ValueError (calculate_density x y bandwidth s)
     ∧ length (cleaned x y).1 < 2 ∧ length (cleaned x y).2 < 2
     ∧ CallKde (cleaned x y).1 (cleaned x y).2 bandwidth
         ∈ trace (calculate_density x y bandwidth s).1
     ∧ (calculate_density x y bandwidth s).2
       = match (gaussian_kde (cleaned x y).1 (cleaned x y).2 bandwidth (world s)).2 with
         | inl e => inl (Raised e)
         | inr z => reordered (cleaned x y).1 (cleaned x y).2 z
         end).
Proof.
  intros Hxy Hlen Hfew.
  destruct (cleaned_lengths x y Hxy) as (Hcy & Hcx & _).
  assert (Hacc : bandwidth_rejected bandwidth = false →
            (calculate_density x y bandwidth s).2
            = match (gaussian_kde (cleaned x y).1 (cleaned x y).2 bandwidth (world s)).2 with
              | inl e => inl (Raised e)
              | inr z => reordered (cleaned x y).1 (cleaned x y).2 z
              end).
  { intros Hb. rewrite calculate_density_accepted by done.
    destruct (cleaned x y) as [cx cy]. simpl.
    by destruct (gaussian_kde cx cy bandwidth (world s)). }
  split.
  - intros n. destruct (bandwidth_rejected bandwidth) eqn:Hb.
    + destruct bandwidth as [b|]; [simpl in Hb|done].
      by rewrite calculate_density_bad_bandwidth.
    + rewrite Hacc by done.
      destruct (gaussian_kde _ _ _ _) as [w [err|z]]; simpl; [done|].
      unfold reordered. by repeat case_match.
  - intros Hb. split; [|split; [lia|split; [lia|split]]].
    + by apply calculate_density_accepted_no_ValueError.
    + rewrite calculate_density_trace by done. set_solver.
    + by apply Hacc.
Qed.

End Cleaning_properties.

(** ** Order facts on binary64 values *)






Lemma range_rejected_cases (minval maxval : float) :
  range_rejected minval maxval = true
  ↔ fge minval maxval = true ∨ in_unit_interval minval = false
    ∨ in_unit_interval maxval = false.
Proof.
  unfold range_rejected.
  destruct (fge minval maxval), (in_unit_interval minval), (in_unit_interval maxval);
    simpl; intuition congruence.
Qed.

(** The literals are canonical binary64 values. *)
Lemma literals_are_binary64 :
  Forall (λ v, is_binary64 v = true)
    [zero; neg_zero; one; two; three; four; f0_5; f0_4; f0_9; f0_1; f1_1; fm0_1].
Proof. repeat constructor. Qed.

(** [format(v, '.2f')] on 0.4, 0.9, 0.5, 1.0, -0.0, 0.125 (a tie, to
    even), 0.015 (below the tie in binary64) and 15.36. *)
Lemma format_2f_examples :
  format_2f <$> [f0_4; f0_9; f0_5; one; neg_zero;
                 S754_finite false 4503599627370496 (-55);
                 S754_finite false 8646911284551352 (-59);
                 S754_finite false 8646911284551352 (-49)]
  = ["0.40"; "0.90"; "0.50"; "1.00"; "-0.00"; "0.12"; "0.01"; "15.36"].
Proof. vm_compute. reflexivity. Qed.

Lemma string_append_assoc (a b c : string) : (a +:+ b) +:+ c = a +:+ b +:+ c.
Proof.
  induction a as [|ch a IH]; [done|].
  change (String ch ((a +:+ b) +:+ c) = String ch (a +:+ b +:+ c)).
  by f_equal.
Qed.

Lemma two_digits_spec (k : Z) : (0 ≤ k < 100)%Z → two_digit_string (two_digits k) = true.
Proof.
  intros Hk.
  assert (H : forallb (λ k, two_digit_string (two_digits k)) (seqZ 0 100) = true)
    by (vm_compute; reflexivity).
  rewrite forallb_forall in H. apply H, list_elem_of_In, elem_of_seqZ. lia.
Qed.

Lemma format_2f_finite (v : float) : isfinite v = true → two_decimals (format_2f v).
Proof.
  destruct v as [sg|sg| |sg m e]; try done; intros _.
  - exists (if sg then "-0" else "0"), "00". by destruct sg.
  - unfold format_2f.
    set (h := if (0 <=? e)%Z then _ else _).
    exists ((if sg then "-" else EmptyString) +:+ pretty (h / 100)%Z),
           (two_digits (h mod 100)).
    split; [by rewrite string_append_assoc|].
    apply two_digits_spec. by apply Z.mod_pos_bound.
Qed.

Lemma in_unit_interval_finite (v : float) : in_unit_interval v = true → isfinite v = true.
Proof. by destruct v as [[]|[]| |[] m e]. Qed.

Lemma range_accepted_bounds (minval maxval : float) :
  range_rejected minval maxval = false →
  in_unit_interval minval = true ∧ in_unit_interval maxval = true.
Proof.
  unfold range_rejected.
  destruct (fge minval maxval), (in_unit_interval minval), (in_unit_interval maxval);
    simpl; intuition congruence.
Qed.




(** ** [truncate_colormap], step by step *)

Section Truncation.
Context {C : Collaborators}.
Implicit Types (c : Colormap) (minval maxval : float) (n : Z) (s : state).

Lemma truncate_colormap_by_object c minval maxval n s :
  truncate_colormap (ByObject c) minval maxval n s = (s, truncated c minval maxval n).
Proof.
  unfold truncate_colormap, truncated, range_rejected, range_error, in_unit_interval,
    bind, ret.
  destruct (fge minval maxval); simpl; [done|].
  destruct (fle zero minval && fle minval one && (fle zero maxval && fle maxval one));
    simpl; [|done].
  by destruct (linspace minval maxval n).
Qed.

Lemma truncate_colormap_by_name name minval maxval n s :
  truncate_colormap (ByName name) minval maxval n s
  = let '(w, r) := get_cmap name (world s) in
    (State w (trace s ++ [CallGetCmap name]),
     match r with
     | inl e => inl (Raised e)
     | inr c => truncated c minval maxval n
     end).
Proof.
  unfold truncate_colormap, bind, call.
  destruct (get_cmap name (world s)) as [w [err|c]]; [done|].
  apply (truncate_colormap_by_object c minval maxval n (State w _)).
Qed.

Lemma truncate_colormap_resolved cmap minval maxval n s c s' :
  resolved cmap s c s' →
  truncate_colormap cmap minval maxval n s = (s', truncated c minval maxval n).
Proof.
  destruct cmap as [name|c']; simpl.
  - unfold call. intros Hr. rewrite truncate_colormap_by_name.
    destruct (get_cmap name (world s)) as [w [err|c']]; [done|].
    by injection Hr as <- <-.
  - intros [-> ->]. apply truncate_colormap_by_object.
Qed.

Lemma truncated_ValueError c minval maxval n :
  (∃ why, truncated c minval maxval n = inl (ValueError why))
  ↔ range_rejected minval maxval = true.
Proof.
  unfold truncated. destruct (range_rejected minval maxval).
  - split; [done|]. by eexists.
  - split; [|done]. intros [why Hwhy]. by destruct (linspace minval maxval n).
Qed.

Lemma truncate_colormap_ValueError cmap minval maxval n s :
  raises_ValueError (truncate_colormap cmap minval maxval n s) →
  range_rejected minval maxval = true.
Proof.
  intros [why Hwhy]. destruct cmap as [name|c].
  - rewrite truncate_colormap_by_name in Hwhy.
    destruct (get_cmap name (world s)) as [w [err|c]]; [done|].
    apply (truncated_ValueError c minval maxval n). by exists why.
  - rewrite truncate_colormap_by_object in Hwhy.
    apply (truncated_ValueError c minval maxval n). by exists why.
Qed.

Lemma truncate_colormap_untouched cmap minval maxval n s :
  surface_untouched s (truncate_colormap cmap minval maxval n s).1.
Proof.
  destruct cmap as [name|c].
  - rewrite truncate_colormap_by_name.
    destruct (get_cmap name (world s)) as [w r]. simpl.
    exists [CallGetCmap name]. split; [done|]. by repeat constructor.
  - rewrite truncate_colormap_by_object. exists []. by rewrite app_nil_r.
Qed.

(** C4, as the code has it: whatever the [cmap], [truncate_colormap]
    raises a [ValueError] only when [minval >= maxval] or one of the two
    is not in [0, 1].  For a colormap object, or a name the registry
    resolves, it raises one exactly then; the ranges (0.5, 0.5),
    (-0.1, 0.9) and (0.1, 1.1) are rejected.  For a name the registry
    does not resolve, the failure of the registry is raised, whatever
    the range. *)
Theorem truncate_colormap_validation cmap minval maxval n s :
  (raises_ValueError (truncate_colormap cmap minval maxval n s) →
   fge minval maxval = true ∨ in_unit_interval minval = false
   ∨ in_unit_interval maxval = false)
  ∧ (∀ c s', resolved cmap s c s' →
       (raises_ValueError (truncate_colormap cmap minval maxval n s)
        ↔ fge minval maxval = true ∨ in_unit_interval minval = false
          ∨ in_unit_interval maxval = false)
       ∧ raises_ValueError (truncate_colormap cmap f0_5 f0_5 256 s)
       ∧ raises_ValueError (truncate_colormap cmap fm0_1 f0_9 256 s)
       ∧ raises_ValueError (truncate_colormap cmap f0_1 f1_1 256 s))
  ∧ (∀ name w e,
       cmap = ByName name → get_cmap name (world s) = (w, inl e) →
       truncate_colormap cmap minval maxval n s
       = (State w (trace s ++ [CallGetCmap name]), inl (Raised e))).
Proof.
  split; [|split].
  - intros Hr. by apply range_rejected_cases, (truncate_colormap_ValueError cmap _ _ n s).
  - intros c s' Hres. unfold raises_ValueError.
    rewrite !(truncate_colormap_resolved cmap _ _ _ s c s' Hres). simpl.
    rewrite truncated_ValueError, range_rejected_cases.
    repeat split; try done; by eexists.
  - intros name w e -> Hget. rewrite truncate_colormap_by_name. by rewrite Hget.
Qed.


End Truncation.

(** ** [plot_density_scatter], step by step *)

Lemma setdefault_lookup (k : string) (v : pyval) (d : gmap string pyval) :
  setdefault k v d !! k = Some (default v (d !! k)).
Proof.
  unfold setdefault. destruct (d !! k) as [u|] eqn:Hk; simpl; [done|].
  apply lookup_insert_eq.
Qed.

Lemma setdefault_lookup_ne (k k' : string) (v : pyval) (d : gmap string pyval) :
  k ≠ k' → setdefault k v d !! k' = d !! k'.
Proof.
  intros Hne. unfold setdefault. destruct (d !! k); [done|].
  by apply lookup_insert_ne.
Qed.

Lemma setdefault_keeps (k k' : string) (v u : pyval) (d : gmap string pyval) :
  d !! k' = Some u → setdefault k v d !! k' = Some u.
Proof.
  intros Hu. destruct (decide (k = k')) as [->|Hne].
  - by rewrite setdefault_lookup, Hu.
  - by rewrite setdefault_lookup_ne.
Qed.

Section Plot.
Context {C : Collaborators}.
Implicit Types (x y : list float) (bandwidth : option float) (cmap : cmap_arg)
  (minval maxval : float) (n : Z) (ax : option Axes)
  (kwargs : gmap string pyval) (s : state).

Lemma calculate_density_untouched x y bandwidth s :
  surface_untouched s (calculate_density x y bandwidth s).1.
Proof.
  assert (Hnone : surface_untouched s s) by (exists []; by rewrite app_nil_r).
  destruct (decide (length x = length y)) as [Hxy|Hxy];
    [|by rewrite calculate_density_lengths_differ].
  destruct (decide (length x < 2)) as [Hlen|Hlen];
    [by rewrite calculate_density_too_few|].
  destruct (bandwidth_rejected bandwidth) eqn:Hb.
  - destruct bandwidth as [b|]; [simpl in Hb|done].
    by rewrite calculate_density_bad_bandwidth by (done || lia).
  - eexists. split; [apply calculate_density_trace; (done || lia)|].
    apply Forall_app. split; [|by repeat constructor].
    unfold cleaning_warnings. destruct (mask_all _); by repeat constructor.
Qed.

Lemma surface_untouched_trans s1 s2 s3 :
  surface_untouched s1 s2 → surface_untouched s2 s3 → surface_untouched s1 s3.
Proof.
  intros (e1 & H1 & F1) (e2 & H2 & F2). exists (e1 ++ e2).
  split; [by rewrite H2, H1, app_assoc|]. by apply Forall_app.
Qed.

Lemma plot_density_scatter_estimate_fails x y bandwidth cmap minval maxval n ax kwargs s s1 e :
  calculate_density x y bandwidth s = (s1, inl e) →
  plot_density_scatter x y bandwidth cmap minval maxval n ax kwargs s = (s1, inl e).
Proof. intros H. unfold plot_density_scatter, bind. by rewrite H. Qed.

Lemma plot_density_scatter_truncate_fails x y bandwidth cmap minval maxval n ax kwargs
    s s1 v s2 e :
  calculate_density x y bandwidth s = (s1, inr v) →
  truncate_colormap cmap minval maxval n s1 = (s2, inl e) →
  plot_density_scatter x y bandwidth cmap minval maxval n ax kwargs s = (s2, inl e).
Proof.
  intros H1 H2. unfold plot_density_scatter. unfold bind at 1. rewrite H1.
  destruct v as [[xs ys] d]. unfold bind at 1. by rewrite H2.
Qed.

Lemma plot_density_scatter_draws x y bandwidth cmap minval maxval n ax kwargs
    s s1 x_sorted y_sorted density s2 c :
  calculate_density x y bandwidth s = (s1, inr (x_sorted, y_sorted, density)) →
  truncate_colormap cmap minval maxval n s1 = (s2, inr c) →
  plot_density_scatter x y bandwidth cmap minval maxval n ax kwargs s
  = scatter_call (surface ax s2).2 x_sorted y_sorted density c
      (setdefault "edgecolor" (PyStr "None") kwargs) (surface ax s2).1.
Proof.
  intros H1 H2. unfold plot_density_scatter. unfold bind at 1. rewrite H1.
  unfold bind at 1. rewrite H2. unfold bind, surface, call, ret.
  destruct ax as [a|]; [done|]. by destruct (gca (world s2)).
Qed.

Lemma scatter_call_trace a x y d c kwargs s :
  trace s `prefix_of` trace (scatter_call a x y d c kwargs s).1.
Proof.
  unfold scatter_call. repeat case_bool_decide; try done.
  unfold call. destruct (scatter _ _ _ _ _ _ _). simpl. by apply prefix_app_r.
Qed.

Lemma surface_trace ax s : trace s `prefix_of` trace (surface ax s).1.
Proof.
  unfold surface. destruct ax; [done|]. destruct (gca (world s)). simpl.
  by apply prefix_app_r.
Qed.

Lemma surface_untouched_prefix s s' :
  surface_untouched s s' → trace s `prefix_of` trace s'.
Proof. intros (evs & -> & _). by apply prefix_app_r. Qed.

(** C5, as the code has it: a rejected input of [calculate_density]
    raises its [ValueError] with nothing emitted and no collaborator
    called; so does a rejected range of [truncate_colormap] when [cmap]
    is a colormap object.  When [cmap] is a name the registry is asked
    first, whatever the range: its failure is raised if it fails, and the
    [ValueError] of the range only if it answers. *)
Theorem validation_before_estimation_and_sampling :
  (∀ x y bandwidth s,
     length x ≠ length y ∨ length x < 2 ∨ bandwidth_rejected bandwidth = true →
     ∃ why, calculate_density x y bandwidth s = (s, inl (ValueError why)))
  ∧ (∀ c minval maxval n s,
       range_rejected minval maxval = true →
       truncate_colormap (ByObject c) minval maxval n s
       = (s, inl (ValueError (range_error minval maxval))))
  ∧ (∀ name minval maxval n s,
       range_rejected minval maxval = true →
       truncate_colormap (ByName name) minval maxval n s
       = (State (get_cmap name (world s)).1 (trace s ++ [CallGetCmap name]),
          match (get_cmap name (world s)).2 with
          | inl e => inl (Raised e)
          | inr _ => inl (ValueError (range_error minval maxval))
          end)).
Proof.
  split; [|split].
  - intros x y bandwidth s Hrej.
    destruct (decide (length x = length y)) as [Hxy|Hxy];
      [|rewrite calculate_density_lengths_differ by done; by eexists].
    destruct (decide (length x < 2)) as [Hlen|Hlen];
      [rewrite calculate_density_too_few by done; by eexists|].
    destruct Hrej as [?|[?|Hb]]; try done.
    destruct bandwidth as [b|]; [simpl in Hb|done].
    rewrite calculate_density_bad_bandwidth by (done || lia). by eexists.
  - intros c minval maxval n s Hrej. rewrite truncate_colormap_by_object.
    unfold truncated. by rewrite Hrej.
  - intros name minval maxval n s Hrej. rewrite truncate_colormap_by_name.
    destruct (get_cmap name (world s)) as [w [err|c]]; simpl; [done|].
    unfold truncated. by rewrite Hrej.
Qed.

(** C7: [plot_density_scatter] runs [calculate_density] first and
    [truncate_colormap] in the state it leaves.  When either raises, the
    call ends in the state that function left, with the exception it
    raised; up to there nothing touched the drawing surface (no
    [plt.gca()], no [scatter]).  Everything [calculate_density] emitted,
    its warning included, stays in the trace of the whole call. *)
Theorem plot_density_scatter_propagates x y bandwidth cmap minval maxval n ax kwargs s :
  (∀ s1 e,
     calculate_density x y bandwidth s = (s1, inl e) →
     plot_density_scatter x y bandwidth cmap minval maxval n ax kwargs s = (s1, inl e)
     ∧ surface_untouched s s1)
  ∧ (∀ s1 v s2 e,
       calculate_density x y bandwidth s = (s1, inr v) →
       truncate_colormap cmap minval maxval n s1 = (s2, inl e) →
       plot_density_scatter x y bandwidth cmap minval maxval n ax kwargs s = (s2, inl e)
       ∧ surface_untouched s s2
       ∧ trace s1 `prefix_of` trace s2)
  ∧ trace (calculate_density x y bandwidth s).1
      `prefix_of` trace (plot_density_scatter x y bandwidth cmap minval maxval n ax kwargs s).1.
Proof.
  split; [|split].
  - intros s1 e H. split; [by apply plot_density_scatter_estimate_fails|].
    change s1 with (s1, @inl (exn Failure) (list float * list float * list float) e).1.
    rewrite <- H. apply calculate_density_untouched.
  - intros s1 v s2 e H1 H2.
    assert (U1 : surface_untouched s s1).
    { change s1 with (s1, @inr (exn Failure) _ v).1. rewrite <- H1.
      apply calculate_density_untouched. }
    assert (U2 : surface_untouched s1 s2).
    { change s2 with (s2, @inl _ Colormap e).1. rewrite <- H2.
      apply truncate_colormap_untouched. }
    split; [by eapply plot_density_scatter_truncate_fails|].
    split; [by eapply surface_untouched_trans|by apply surface_untouched_prefix].
  - destruct (calculate_density x y bandwidth s) as [s1 [e|[[xs ys] d]]] eqn:H1.
    + by rewrite (plot_density_scatter_estimate_fails _ _ _ cmap minval maxval n
                    ax kwargs _ _ _ H1).
    + destruct (truncate_colormap cmap minval maxval n s1) as [s2 [e|c]] eqn:H2.
      * rewrite (plot_density_scatter_truncate_fails _ _ _ _ _ _ _ ax kwargs
                   _ _ _ _ _ H1 H2). simpl.
        apply surface_untouched_prefix.
        change s2 with (s2, @inl _ Colormap e).1. rewrite <- H2.
        apply truncate_colormap_untouched.
      * rewrite (plot_density_scatter_draws _ _ _ _ _ _ _ ax kwargs
                   _ _ _ _ _ _ _ H1 H2). simpl.
        etrans; [|apply scatter_call_trace]. etrans; [|apply surface_trace].
        apply surface_untouched_prefix.
        change s2 with (s2, @inr (exn Failure) _ c).1. rewrite <- H2.
        apply truncate_colormap_untouched.
Qed.

(** C8, as the code has it: when both steps succeed and the caller's
    options hold neither [c] nor [cmap], [scatter] is called with the
    caller's options, each with the value the caller gave (an
    [edgecolor] of the caller is kept), and nothing but the key
    [edgecolor] is added; when the caller gave no edge-colour option,
    [edgecolor='None'] is what is added.  An option [c] makes the call
    raise [TypeError], and [scatter] is not entered. *)
Theorem plot_density_scatter_forwards_options x y bandwidth cmap minval maxval n ax kwargs
    s s1 x_sorted y_sorted density s2 c :
  calculate_density x y bandwidth s = (s1, inr (x_sorted, y_sorted, density)) →
  truncate_colormap cmap minval maxval n s1 = (s2, inr c) →
  (kwargs !! "c" = None → kwargs !! "cmap" = None →
   ∃ forwarded,
     plot_density_scatter x y bandwidth cmap minval maxval n ax kwargs s
     = call (CallScatter (surface ax s2).2 x_sorted y_sorted density c forwarded)
            (scatter (surface ax s2).2 x_sorted y_sorted density c forwarded)
            (surface ax s2).1
     ∧ (∀ k v, kwargs !! k = Some v → forwarded !! k = Some v)
     ∧ (Forall (λ k, kwargs !! k = None) edge_color_options →
        forwarded !! "edgecolor" = Some (PyStr "None"))
     ∧ (∀ k, k ≠ "edgecolor" → forwarded !! k = kwargs !! k))
  ∧ (is_Some (kwargs !! "c") →
     plot_density_scatter x y bandwidth cmap minval maxval n ax kwargs s
     = ((surface ax s2).1, inl (TypeError "c"))).
Proof.
  intros H1 H2. rewrite (plot_density_scatter_draws _ _ _ _ _ _ _ _ _ _ _ _ _ _ _ _ H1 H2).
  unfold scatter_call. rewrite !setdefault_lookup_ne by done. split.
  - intros Hc Hcmap. exists (setdefault "edgecolor" (PyStr "None") kwargs).
    rewrite Hc, Hcmap.
    rewrite !bool_decide_eq_false_2 by (by intros [? ?]).
    split; [done|]. split; [by intros; apply setdefault_keeps|].
    split.
    + intros Hno. apply Forall_cons in Hno as [Hk _].
      by rewrite setdefault_lookup, Hk.
    + intros k Hk. by apply setdefault_lookup_ne.
  - intros Hc. by rewrite bool_decide_eq_true_2.
Qed.

End Plot.

(** ** The properties on concrete calls *)

Section Runs.
Import Demo.

Lemma calculate_density_sorted_permutation_witness :
  ∃ x_sorted y_sorted density,
    (calculate_density [one; two; one; nan] [one; two; one; one] None s0).2
    = inr (x_sorted, y_sorted, density)
    ∧ length x_sorted = length density
    ∧ length y_sorted = length density
    ∧ length density ≤ 4
    ∧ non_decreasing density
    ∧ zip x_sorted (zip y_sorted density)
        ≡ₚ zip [one; two; one] (zip [one; two; one] [two; one; two])
    ∧ zip [one; two; one] [one; two; one]
      = List.filter finite_pair (zip [one; two; one; nan] [one; two; one; one]).
Proof.
  apply (calculate_density_sorted_permutation
           [one; two; one; nan] [one; two; one; one] None s0 0 [two; one; two]).
  - reflexivity.
  - simpl; lia.
  - reflexivity.
  - reflexivity.
  - reflexivity.
  - by repeat constructor.
  - split.
    + change ([1; 0; 2] ≡ₚ [0; 1; 2]). apply perm_swap.
    + exists [one; two; two]. split; [reflexivity|].
      repeat (constructor; [|by repeat constructor]). constructor.
Defined.

(** C1 as stated fails: on valid input nothing is returned when the
    estimator raises, as it does here on the empty set the cleaning
    leaves; and with an estimator that answers NaN the densities
    returned are not non-decreasing. *)
Lemma estimator_counterexample :
  (length [nan; nan] = length [one; inf] ∧ 2 ≤ length [nan; nan]
   ∧ calculate_density [nan; nan] [one; inf] None s0
     = (after [Warn "Removing 2 points with NaN or infinite values"; CallKde [] [] None],
        inl (Raised "LinAlgError")))
  ∧ ((@calculate_density (demo_with_kde nan_kde) [one; two] [one; two] None
        (@State (demo_with_kde nan_kde) 0 [])).2
     = inr ([one; two], [one; two], [nan; nan])
     ∧ ¬ non_decreasing [nan; nan]).
Proof.
  split; [split; [reflexivity|split; [simpl; lia|reflexivity]]|].
  split; [reflexivity|].
  intros H. inversion H as [|? ? _ Hall]; subst.
  inversion Hall as [|? ? Hle _]; subst. discriminate Hle.
Qed.

Lemma calculate_density_validation_witness :
  ¬ raises_ValueError (calculate_density [one; two] [one; two] None s0).
Proof.
  apply (calculate_density_validation [one; two] [one; two] None s0).
  - reflexivity.
  - simpl; lia.
Defined.


Lemma calculate_density_deterministic_witness :
  (calculate_density [one; two; nan; four] [one; two; three; inf] (Some f0_5)
     (calculate_density [one; two; nan; four] [one; two; three; inf] (Some f0_5) s0).1).2
  = (calculate_density [one; two; nan; four] [one; two; three; inf] (Some f0_5) s0).2.
Proof.
  apply (calculate_density_deterministic
           [one; two; nan; four] [one; two; three; inf] (Some f0_5)).
  intros w1 w2. reflexivity.
Defined.

Lemma calculate_density_counts_before_cleaning_witness :
  ¬ raises_ValueError (calculate_density [nan; nan] [one; inf] None s0)
  ∧ length (cleaned [nan; nan] [one; inf]).1 < 2
  ∧ length (cleaned [nan; nan] [one; inf]).2 < 2
  ∧ CallKde [] [] None ∈ trace (calculate_density [nan; nan] [one; inf] None s0).1
  ∧ (calculate_density [nan; nan] [one; inf] None s0).2 = inl (Raised "LinAlgError").
Proof.
  apply (calculate_density_counts_before_cleaning [nan; nan] [one; inf] None s0).
  - reflexivity.
  - simpl; lia.
  - simpl; lia.
  - reflexivity.
Defined.

Lemma truncate_colormap_validation_witness :
  ((raises_ValueError (truncate_colormap (ByName "Reds") f0_9 f0_4 256 s0)
    ↔ fge f0_9 f0_4 = true ∨ in_unit_interval f0_9 = false
      ∨ in_unit_interval f0_4 = false)
   ∧ raises_ValueError (truncate_colormap (ByName "Reds") f0_5 f0_5 256 s0)
   ∧ raises_ValueError (truncate_colormap (ByName "Reds") fm0_1 f0_9 256 s0)
   ∧ raises_ValueError (truncate_colormap (ByName "Reds") f0_1 f1_1 256 s0))
  ∧ truncate_colormap (ByName "nope") f0_4 f0_9 256 s0
    = (after [CallGetCmap "nope"], inl (Raised "ValueError: not a valid value for cmap")).
Proof.
  split.
  - apply (proj1 (proj2 (truncate_colormap_validation (ByName "Reds") f0_9 f0_4 256 s0))
             (Registered "Reds") (after [CallGetCmap "Reds"])).
    reflexivity.
  - apply (proj2 (proj2 (truncate_colormap_validation (ByName "nope") f0_4 f0_9 256 s0))
             "nope" (0 : @World demo) "ValueError: not a valid value for cmap").
    + reflexivity.
    + reflexivity.
Defined.

(** C4 as stated fails: the range (0.5, 0.5) is not accepted, yet with a
    name the registry does not know no [ValueError] of the range is
    raised: the call ends with the failure of the registry. *)
Lemma unresolved_name_counterexample :
  fge f0_5 f0_5 = true
  ∧ truncate_colormap (ByName "nope") f0_5 f0_5 256 s0
    = (after [CallGetCmap "nope"], inl (Raised "ValueError: not a valid value for cmap"))
  ∧ ¬ raises_ValueError (truncate_colormap (ByName "nope") f0_5 f0_5 256 s0).
Proof.
  split; [reflexivity|]. split; [reflexivity|]. intros [why Hwhy]. discriminate Hwhy.
Qed.



Lemma validation_before_estimation_and_sampling_witness :
  (∃ why, calculate_density [one] [one] None s0 = (s0, inl (ValueError why)))
  ∧ truncate_colormap (ByObject (Registered "Reds")) f0_5 f0_5 256 s0
    = (s0, inl (ValueError (MinvalLessThanMaxval f0_5 f0_5)))
  ∧ truncate_colormap (ByName "Reds") f0_5 f0_5 256 s0
    = (after [CallGetCmap "Reds"], inl (ValueError (MinvalLessThanMaxval f0_5 f0_5))).
Proof.
  pose proof validation_before_estimation_and_sampling as (Hdensity & Hobject & Hname).
  split; [|split].
  - apply (Hdensity [one] [one] None s0). right; left. simpl; lia.
  - apply (Hobject (Registered "Reds") f0_5 f0_5 256%Z s0). reflexivity.
  - apply (Hname "Reds" f0_5 f0_5 256%Z s0). reflexivity.
Defined.

(** C5 as stated fails: with the rejected range (0.5, 0.5) and a name,
    the registry is asked before the range is checked, and when it does
    not know the name its failure is what the call raises. *)
Lemma eager_validation_counterexample :
  range_rejected f0_5 f0_5 = true
  ∧ truncate_colormap (ByName "Reds") f0_5 f0_5 256 s0
    = (after [CallGetCmap "Reds"], inl (ValueError (MinvalLessThanMaxval f0_5 f0_5)))
  ∧ truncate_colormap (ByName "nope") f0_5 f0_5 256 s0
    = (after [CallGetCmap "nope"],
       inl (Raised "ValueError: not a valid value for cmap"))
  ∧ ¬ (∀ name, ∃ why, truncate_colormap (ByName name) f0_5 f0_5 256 s0
                       = (s0, inl (ValueError why))).
Proof.
  split; [reflexivity|]. split; [reflexivity|]. split; [reflexivity|].
  intros H. destruct (H "Reds") as [why Hwhy]. discriminate Hwhy.
Qed.

Lemma plot_density_scatter_propagates_witness :
  (plot_density_scatter [one] [one] None (ByName "Reds") f0_4 f0_9 256 None ∅ s0
   = (s0, inl (ValueError (AtLeastTwoPoints 1)))
   ∧ surface_untouched s0 s0)
  ∧ (plot_density_scatter [one; two; nan] [one; two; one] None (ByName "Reds")
       f0_9 f0_4 256 None ∅ s0
     = (after [Warn "Removing 1 points with NaN or infinite values";
                 CallKde [one; two] [one; two] None; CallGetCmap "Reds"],
        inl (ValueError (MinvalLessThanMaxval f0_9 f0_4)))
     ∧ surface_untouched s0
         (after [Warn "Removing 1 points with NaN or infinite values";
                   CallKde [one; two] [one; two] None; CallGetCmap "Reds"])
     ∧ [Warn "Removing 1 points with NaN or infinite values";
        CallKde [one; two] [one; two] None]
         `prefix_of` [Warn "Removing 1 points with NaN or infinite values";
                      CallKde [one; two] [one; two] None; CallGetCmap "Reds"]).
Proof.
  split.
  - apply (proj1 (plot_density_scatter_propagates
                    [one] [one] None (ByName "Reds") f0_4 f0_9 256 None ∅ s0)).
    reflexivity.
  - apply (proj1 (proj2 (plot_density_scatter_propagates
                           [one; two; nan] [one; two; one] None (ByName "Reds")
                           f0_9 f0_4 256 None ∅ s0))
             (after [Warn "Removing 1 points with NaN or infinite values";
                     CallKde [one; two] [one; two] None])
             ([one; two], [one; two], [one; one])).
    + reflexivity.
    + reflexivity.
Defined.

Lemma plot_density_scatter_forwards_options_witness :
  ∃ forwarded,
    plot_density_scatter [one; two] [one; two] None (ByName "Reds") f0_4 f0_9 2
      None {["s" := PyFloat four]} s0
    = call (CallScatter 0 [one; two] [one; two] [one; one]
              (Listed "truncated(Reds,0.40,0.90)" [("Reds", f0_4); ("Reds", f0_9)])
              forwarded)
           (scatter 0 [one; two] [one; two] [one; one]
              (Listed "truncated(Reds,0.40,0.90)" [("Reds", f0_4); ("Reds", f0_9)])
              forwarded)
           (after [CallKde [one; two] [one; two] None; CallGetCmap "Reds"; CallGca])
    ∧ (∀ k v, ({["s" := PyFloat four]} : gmap string pyval) !! k = Some v →
              forwarded !! k = Some v)
    ∧ (Forall (λ k, ({["s" := PyFloat four]} : gmap string pyval) !! k = None)
         edge_color_options →
       forwarded !! "edgecolor" = Some (PyStr "None"))
    ∧ (∀ k, k ≠ "edgecolor" →
            forwarded !! k = ({["s" := PyFloat four]} : gmap string pyval) !! k).
Proof.
  apply (plot_density_scatter_forwards_options
           [one; two] [one; two] None (ByName "Reds") f0_4 f0_9 2 None
           {["s" := PyFloat four]} s0
           (after [CallKde [one; two] [one; two] None])
           [one; two] [one; two] [one; one]
           (after [CallKde [one; two] [one; two] None; CallGetCmap "Reds"])
           (Listed "truncated(Reds,0.40,0.90)" [("Reds", f0_4); ("Reds", f0_9)])).
  - reflexivity.
  - reflexivity.
  - reflexivity.
  - reflexivity.
Defined.

(** C8 as stated fails: the option [c='red'] is not forwarded; the call
    raises [TypeError] after [plt.gca()] and [scatter] is never entered. *)
Lemma option_c_counterexample :
  plot_density_scatter [one; two] [one; two] None (ByName "Reds") f0_4 f0_9 2
    None {["c" := PyStr "red"]} s0
  = (after [CallKde [one; two] [one; two] None; CallGetCmap "Reds"; CallGca],
     inl (TypeError "c")).
Proof. reflexivity. Qed.

End Runs.


(** * Further properties of the three functions *)

(** ** What [calculate_density] returns *)

Lemma finite_pairs_mask (x y : list float) :
  Forall (λ p, finite_pair p = true) (zip x y) → mask_all (finite_mask x y) = true.
Proof.
  rewrite finite_mask_pairs. unfold mask_all.
  induction (zip x y) as [|p l IH]; csimpl; [done|].
  intros H. inversion H as [|? ? Hp Hl]; subst. rewrite Hp. simpl. by apply IH.
Qed.

Section Returned_arrays.
Context {C : Collaborators}.
Implicit Types (x y z : list float) (bandwidth : option float) (s : state).

(** X1: whatever [argsort] and the estimator answer, the arrays that
    [calculate_density] returns have one length, and its points are
    never mixed up: every returned pair is a finite pair of the input,
    and every returned triple is a cleaned pair with the density the
    estimator gave for it. *)
Theorem calculate_density_returns_input_points x y bandwidth s s' x_sorted y_sorted density :
  calculate_density x y bandwidth s = (s', inr (x_sorted, y_sorted, density)) →
  length x_sorted = length density
  ∧ length y_sorted = length density
  ∧ Forall (λ p, p ∈ zip x y ∧ isfinite p.1 = true ∧ isfinite p.2 = true)
      (zip x_sorted y_sorted)
  ∧ ∃ z, (gaussian_kde (cleaned x y).1 (cleaned x y).2 bandwidth (world s)).2 = inr z
         ∧ Forall (λ t, t ∈ zip (cleaned x y).1 (zip (cleaned x y).2 z))
             (zip x_sorted (zip y_sorted density)).
Proof.
  intros H. destruct (calculate_density_returns_accepted _ _ _ _ _ _ H) as (Hxy & Hlen & Hb).
  rewrite calculate_density_accepted in H by done.
  pose proof (cleaned_pairs x y) as Hc.
  destruct (cleaned x y) as [cx cy]. simpl in *.
  destruct (gaussian_kde cx cy bandwidth (world s)) as [w [err|z]]; [done|].
  injection H as _ H. apply reordered_elems in H as (Hx & Hy & Hp & Ht).
  split; [done|]. split; [done|]. split; [|by exists z].
  eapply Forall_impl; [exact Hp|]. intros [a b] Hab. rewrite Hc in Hab.
  apply list_elem_of_In, filter_In in Hab as [Hin Hfin].
  apply list_elem_of_In in Hin. unfold finite_pair in Hfin. simpl in *.
  by apply andb_prop in Hfin as [? ?].
Qed.

(** X2: the arrays [calculate_density] returns can be given back to it:
    when they hold at least two points the second call emits no warning
    and hands exactly these arrays to the estimator. *)
Theorem calculate_density_again x y bandwidth s s' x_sorted y_sorted density bandwidth' s'' :
  calculate_density x y bandwidth s = (s', inr (x_sorted, y_sorted, density)) →
  2 ≤ length x_sorted → bandwidth_rejected bandwidth' = false →
  trace (calculate_density x_sorted y_sorted bandwidth' s'').1
  = trace s'' ++ [CallKde x_sorted y_sorted bandwidth'].
Proof.
  intros H Hlen Hb.
  assert (Hfin : Forall (λ p, finite_pair p = true) (zip x_sorted y_sorted)).
  { destruct (calculate_density_returns_accepted _ _ _ _ _ _ H) as (Hxy & Hl & Hb0).
    rewrite calculate_density_accepted in H by done.
    pose proof (cleaned_pairs x y) as Hc.
    destruct (cleaned x y) as [cx cy]. simpl in *.
    destruct (gaussian_kde cx cy bandwidth (world s)) as [w [err|z]]; [done|].
    injection H as _ H. apply reordered_elems in H as (_ & _ & Hp & _).
    eapply Forall_impl; [exact Hp|]. intros p Hp'. rewrite Hc in Hp'.
    by apply list_elem_of_In, filter_In in Hp' as [_ ?]. }
  assert (Hxy : length x_sorted = length y_sorted).
  { destruct (calculate_density_returns_accepted _ _ _ _ _ _ H) as (Hxy & Hl & Hb0).
    rewrite calculate_density_accepted in H by done.
    destruct (cleaned x y) as [cx cy].
    destruct (gaussian_kde cx cy bandwidth (world s)) as [w [err|z]]; [done|].
    injection H as _ H. apply reordered_elems in H as (? & ? & _). congruence. }
  rewrite calculate_density_trace by done.
  apply finite_pairs_mask in Hfin.
  unfold cleaning_warnings, cleaned. rewrite Hfin. simpl.
  by rewrite !select_all by (done || rewrite finite_mask_length; congruence).
Qed.

Lemma fle_zero_nonpositive (b : float) : fle b zero = nonpositive b.
Proof. by destruct b as [[]|[]| |[] m e]. Qed.

(** X3: a bandwidth is rejected exactly when it is a zero, a negative
    number or minus infinity.  A NaN bandwidth is not rejected: it is
    handed to the estimator like a positive one. *)
Theorem calculate_density_bandwidth_nan x y b s :
  length x = length y → 2 ≤ length x →
  (raises_ValueError (calculate_density x y (Some b) s) ↔ nonpositive b = true)
  ∧ (isnan b = true →
     CallKde (cleaned x y).1 (cleaned x y).2 (Some b)
       ∈ trace (calculate_density x y (Some b) s).1).
Proof.
  intros Hxy Hlen. split.
  - rewrite <- fle_zero_nonpositive. destruct (fle b zero) eqn:Hb.
    + rewrite calculate_density_bad_bandwidth by done. split; [done|]. by eexists.
    + split; [|done]. intros Hr.
      by apply (calculate_density_accepted_no_ValueError x y (Some b) s) in Hr.
  - intros Hnan. rewrite calculate_density_trace; [set_solver|done..|].
    by destruct b.
Qed.

End Returned_arrays.

(** ** The name and the range of a truncated colormap *)

(** X9: for every range that passes the checks, the two bounds written
    in the name of the new colormap have exactly two decimal digits
    after the point. *)
Theorem truncated_name_two_decimals (name : string) (minval maxval : float) :
  range_rejected minval maxval = false →
  ∃ a b, truncated_name name minval maxval
         = "truncated(" +:+ name +:+ "," +:+ a +:+ "," +:+ b +:+ ")"
         ∧ two_decimals a ∧ two_decimals b.
Proof.
  intros H. apply range_accepted_bounds in H as [Ha Hb].
  exists (format_2f minval), (format_2f maxval). split; [done|].
  split; by apply format_2f_finite, in_unit_interval_finite.
Qed.

Section Further_truncation.
Context {C : Collaborators}.
Implicit Types (c : Colormap) (minval maxval : float) (n : Z) (s : state).

(** X4: a NaN bound is never accepted: for a colormap object or a name
    the registry resolves, the call raises the [ValueError] of the second
    check ("must be between 0 and 1"), whatever the other bound. *)
Theorem truncate_colormap_nan_bound cmap minval maxval n s c s' :
  resolved cmap s c s' →
  isnan minval = true ∨ isnan maxval = true →
  truncate_colormap cmap minval maxval n s
  = (s', inl (ValueError (BetweenZeroAndOne minval maxval))).
Proof.
  intros Hres Hnan. rewrite (truncate_colormap_resolved cmap _ _ _ s c s' Hres).
  unfold truncated, range_rejected, range_error, in_unit_interval.
  assert (fge minval maxval = false) as ->.
  { by destruct Hnan as [H|H];
      destruct minval as [[]|[]| |[] ? ?], maxval as [[]|[]| |[] ? ?]. }
  assert (fle zero minval && fle minval one && (fle zero maxval && fle maxval one) = false)
    as ->; [|done].
  destruct Hnan as [H|H].
  - by destruct minval.
  - destruct maxval; try done. by rewrite andb_false_r.
Qed.

End Further_truncation.

(** ** The effects of [plot_density_scatter] *)

Section Further_plot.
Context {C : Collaborators}.
Implicit Types (x y : list float) (bandwidth : option float) (cmap : cmap_arg)
  (minval maxval : float) (n : Z) (ax : option Axes)
  (kwargs : gmap string pyval) (s : state).

Lemma new_events_app s s' evs : trace s' = trace s ++ evs → new_events s s' = evs.
Proof. unfold new_events. intros ->. apply drop_app_length. Qed.

Lemma raises_ValueError_inl {A B} s (e : exn Failure) :
  raises_ValueError (A := A) (s, inl e) → raises_ValueError (A := B) (s, inl e).
Proof. intros [why Hwhy]. simpl in Hwhy. injection Hwhy as ->. by exists why. Qed.

Lemma scatter_call_no_ValueError a x y d c kwargs s :
  ¬ raises_ValueError (scatter_call a x y d c kwargs s).
Proof.
  unfold scatter_call, call. intros [why Hwhy]. repeat case_bool_decide; try done.
  by destruct (scatter _ _ _ _ _ _ _) as [w [err|h]].
Qed.

Lemma calculate_density_rejected_raises x y bandwidth s :
  density_input_rejected x y bandwidth →
  ∃ why, calculate_density x y bandwidth s = (s, inl (ValueError why)).
Proof.
  intros Hrej.
  destruct (decide (length x = length y)) as [Hxy|Hxy];
    [|rewrite calculate_density_lengths_differ by done; by eexists].
  destruct (decide (length x < 2)) as [Hlen|Hlen];
    [rewrite calculate_density_too_few by done; by eexists|].
  destruct Hrej as [?|[?|Hb]]; try done.
  destruct bandwidth as [b|]; [simpl in Hb|done].
  rewrite calculate_density_bad_bandwidth by (done || lia). by eexists.
Qed.

Lemma plot_density_scatter_ValueError_cases x y bandwidth cmap minval maxval n ax kwargs s :
  raises_ValueError (plot_density_scatter x y bandwidth cmap minval maxval n ax kwargs s) →
  density_input_rejected x y bandwidth ∨ range_rejected minval maxval = true.
Proof.
  intros Hr.
  destruct (calculate_density x y bandwidth s) as [s1 [e|[[xs ys] d]]] eqn:H1.
  - left.
    rewrite (plot_density_scatter_estimate_fails _ _ _ cmap minval maxval n
               ax kwargs _ _ _ H1) in Hr.
    destruct (decide (length x = length y)) as [Hxy|Hxy]; [|by left].
    destruct (decide (length x < 2)) as [Hlen|Hlen]; [by right; left|].
    right; right. destruct (bandwidth_rejected bandwidth) eqn:Hb; [done|].
    exfalso.
    apply (calculate_density_accepted_no_ValueError x y bandwidth s Hxy ltac:(lia) Hb).
    rewrite H1. by eapply raises_ValueError_inl.
  - right.
    destruct (truncate_colormap cmap minval maxval n s1) as [s2 [e|c]] eqn:H2.
    + rewrite (plot_density_scatter_truncate_fails _ _ _ _ _ _ _ ax kwargs
                 _ _ _ _ _ H1 H2) in Hr.
      apply (truncate_colormap_ValueError cmap minval maxval n s1). rewrite H2.
      by eapply raises_ValueError_inl.
    + rewrite (plot_density_scatter_draws _ _ _ _ _ _ _ ax kwargs
                 _ _ _ _ _ _ _ H1 H2) in Hr.
      by apply scatter_call_no_ValueError in Hr.
Qed.

Lemma plot_density_scatter_extends_density x y bandwidth cmap minval maxval n ax kwargs s :
  trace (calculate_density x y bandwidth s).1
    `prefix_of` trace (plot_density_scatter x y bandwidth cmap minval maxval n ax kwargs s).1.
Proof.
  destruct (calculate_density x y bandwidth s) as [s1 [e|[[xs ys] d]]] eqn:H1.
  - by rewrite (plot_density_scatter_estimate_fails _ _ _ cmap minval maxval n
                  ax kwargs _ _ _ H1).
  - destruct (truncate_colormap cmap minval maxval n s1) as [s2 [e|c]] eqn:H2.
    + rewrite (plot_density_scatter_truncate_fails _ _ _ _ _ _ _ ax kwargs
                 _ _ _ _ _ H1 H2). simpl.
      apply surface_untouched_prefix.
      change s2 with (s2, @inl _ Colormap e).1. rewrite <- H2.
      apply truncate_colormap_untouched.
    + rewrite (plot_density_scatter_draws _ _ _ _ _ _ _ ax kwargs
                 _ _ _ _ _ _ _ H1 H2). simpl.
      etrans; [|apply scatter_call_trace]. etrans; [|apply surface_trace].
      apply surface_untouched_prefix.
      change s2 with (s2, @inr (exn Failure) _ c).1. rewrite <- H2.
      apply truncate_colormap_untouched.
Qed.

(** The events of a call, in three groups: those of the two first
    steps, the [plt.gca()] and the [scatter]. *)
Lemma plot_density_scatter_events x y bandwidth cmap minval maxval n ax kwargs s :
  ∃ before gca_events scatter_events,
    trace (plot_density_scatter x y bandwidth cmap minval maxval n ax kwargs s).1
    = trace s ++ before ++ gca_events ++ scatter_events
    ∧ Forall (λ ev, touches_surface ev = false) before
    ∧ (gca_events = [] ∨ gca_events = [CallGca] ∧ ax = None)
    ∧ (scatter_events = []
       ∧ (∀ h, (plot_density_scatter x y bandwidth cmap minval maxval n ax kwargs s).2
               ≠ inr h)
       ∨ ∃ a xs ys d c,
           scatter_events
           = [CallScatter a xs ys d c (setdefault "edgecolor" (PyStr "None") kwargs)]
           ∧ (∀ a0, ax = Some a0 → a = a0)).
Proof.
  destruct (calculate_density x y bandwidth s) as [s1 [e|[[xs ys] d]]] eqn:H1.
  { rewrite (plot_density_scatter_estimate_fails _ _ _ cmap minval maxval n
               ax kwargs _ _ _ H1).
    pose proof (calculate_density_untouched x y bandwidth s) as (evs & Ht & Hf).
    rewrite H1 in Ht. simpl in *. exists evs, [], [].
    rewrite !app_nil_r. repeat split; try done; by left. }
  pose proof (calculate_density_untouched x y bandwidth s) as U1.
  rewrite H1 in U1. simpl in U1.
  pose proof (truncate_colormap_untouched cmap minval maxval n s1) as U2.
  destruct (surface_untouched_trans _ _ _ U1 U2) as (evs & Ht & Hf).
  destruct (truncate_colormap cmap minval maxval n s1) as [s2 [e|c]] eqn:H2.
  { rewrite (plot_density_scatter_truncate_fails _ _ _ _ _ _ _ ax kwargs
               _ _ _ _ _ H1 H2).
    simpl in *. exists evs, [], [].
    rewrite !app_nil_r. repeat split; try done; by left. }
  rewrite (plot_density_scatter_draws _ _ _ _ _ _ _ ax kwargs _ _ _ _ _ _ _ H1 H2).
  simpl in Ht.
  assert (∃ gca_events,
            trace (surface ax s2).1 = trace s ++ evs ++ gca_events
            ∧ (gca_events = [] ∨ gca_events = [CallGca] ∧ ax = None)
            ∧ (∀ a0, ax = Some a0 → (surface ax s2).2 = a0))
    as (gca_events & Hs & Hg & Ha).
  { unfold surface. destruct ax as [a0|].
    - exists []. rewrite app_nil_r. repeat split; [done|by left|]. by intros ? [= <-].
    - destruct (gca (world s2)) as [w a]. exists [CallGca]. simpl.
      rewrite Ht, <- app_assoc. repeat split; [by right|done]. }
  exists evs, gca_events. unfold scatter_call.
  case_bool_decide.
  { exists []. rewrite app_nil_r. repeat split; try done. by left. }
  case_bool_decide.
  { exists []. rewrite app_nil_r. repeat split; try done. by left. }
  unfold call. destruct (scatter _ _ _ _ _ _ _) as [w r]. simpl.
  eexists. split; [by rewrite Hs, <- !app_assoc|].
  split; [done|]. split; [done|]. right. by eexists _, _, _, _, _.
Qed.

Lemma untouched_no_scatter (evs : list event) :
  Forall (λ ev, touches_surface ev = false) evs → List.filter is_scatter evs = [].
Proof.
  induction 1 as [|ev evs Hev _ IH]; simpl; [done|]. by destruct ev.
Qed.

(** X5: a [ValueError] out of [plot_density_scatter] always comes from
    one of the five checks: the input of [calculate_density] is rejected
    or the range is.  A rejected input of [calculate_density] always
    gives one, before anything else happens. *)
Theorem plot_density_scatter_ValueError_origin x y bandwidth cmap minval maxval n ax kwargs s :
  (raises_ValueError (plot_density_scatter x y bandwidth cmap minval maxval n ax kwargs s) →
   density_input_rejected x y bandwidth ∨ range_rejected minval maxval = true)
  ∧ (density_input_rejected x y bandwidth →
     ∃ why, plot_density_scatter x y bandwidth cmap minval maxval n ax kwargs s
            = (s, inl (ValueError why))).
Proof.
  split; [apply plot_density_scatter_ValueError_cases|].
  intros Hrej. destruct (calculate_density_rejected_raises x y bandwidth s Hrej) as [why H].
  exists why. by apply plot_density_scatter_estimate_fails.
Qed.

(** X6: in [plot_density_scatter] the range is checked after the
    densities are estimated: with an accepted input of
    [calculate_density] the estimator is called even when the range is
    rejected, and the [ValueError] of the range is raised only when the
    estimate has returned. *)
Theorem plot_density_scatter_estimates_before_range x y bandwidth cmap minval maxval n
    ax kwargs s :
  length x = length y → 2 ≤ length x → bandwidth_rejected bandwidth = false →
  range_rejected minval maxval = true →
  CallKde (cleaned x y).1 (cleaned x y).2 bandwidth
    ∈ trace (plot_density_scatter x y bandwidth cmap minval maxval n ax kwargs s).1
  ∧ (∀ e, (calculate_density x y bandwidth s).2 = inl e →
          (plot_density_scatter x y bandwidth cmap minval maxval n ax kwargs s).2 = inl e
          ∧ ¬ raises_ValueError
                (plot_density_scatter x y bandwidth cmap minval maxval n ax kwargs s))
  ∧ (∀ c s1 v, cmap = ByObject c →
               calculate_density x y bandwidth s = (s1, inr v) →
               plot_density_scatter x y bandwidth cmap minval maxval n ax kwargs s
               = (s1, inl (ValueError (range_error minval maxval)))).
Proof.
  intros Hxy Hlen Hb Hrange. split; [|split].
  - pose proof (plot_density_scatter_extends_density
                  x y bandwidth cmap minval maxval n ax kwargs s) as [k Hk].
    rewrite Hk, calculate_density_trace by done. set_solver.
  - intros e He.
    destruct (calculate_density x y bandwidth s) as [s1 r] eqn:H1. simpl in He. subst r.
    rewrite (plot_density_scatter_estimate_fails _ _ _ cmap minval maxval n
               ax kwargs _ _ _ H1).
    split; [done|]. intros Hr.
    apply (calculate_density_accepted_no_ValueError x y bandwidth s); [done..|].
    rewrite H1. by eapply raises_ValueError_inl.
  - intros c s1 v -> H1.
    apply (plot_density_scatter_truncate_fails _ _ _ _ _ _ _ _ _ _ _ _ _ _ H1).
    rewrite truncate_colormap_by_object. unfold truncated. by rewrite Hrange.
Qed.

(** X7: when the caller gives the axes, [plt.gca()] is never called and
    [scatter] is only ever called on the caller's axes. *)
Theorem plot_density_scatter_on_given_axes x y bandwidth cmap minval maxval n a kwargs s :
  (CallGca ∉ new_events s
     (plot_density_scatter x y bandwidth cmap minval maxval n (Some a) kwargs s).1)
  ∧ (∀ a' xs ys d c kw,
       CallScatter a' xs ys d c kw
         ∈ new_events s
             (plot_density_scatter x y bandwidth cmap minval maxval n (Some a) kwargs s).1 →
       a' = a).
Proof.
  destruct (plot_density_scatter_events x y bandwidth cmap minval maxval n (Some a) kwargs s)
    as (before & gca_events & scatter_events & Ht & Hf & Hg & Hs).
  rewrite (new_events_app _ _ _ Ht).
  destruct Hg as [->|[_ ?]]; [|done]. simpl.
  rewrite Forall_forall in Hf. split.
  - intros [Hin|Hin]%elem_of_app.
    + by apply Hf in Hin.
    + destruct Hs as [[-> _]|(a' & xs & ys & d & c & -> & _)].
      * by apply elem_of_nil in Hin.
      * by apply list_elem_of_singleton in Hin.
  - intros a' xs ys d c kw [Hin|Hin]%elem_of_app.
    + by apply Hf in Hin.
    + destruct Hs as [[-> _]|(a'' & xs' & ys' & d' & c' & -> & Ha)];
        [by apply elem_of_nil in Hin|].
      apply list_elem_of_singleton in Hin. injection Hin as -> _. by apply Ha.
Qed.

(** X8: a call of [plot_density_scatter] calls [scatter] at most once;
    when it returns a handle it has called it exactly once, as the last
    thing it did, with the caller's options and the default
    [edgecolor]. *)
Theorem plot_density_scatter_one_layer x y bandwidth cmap minval maxval n ax kwargs s :
  length (List.filter is_scatter
            (new_events s
               (plot_density_scatter x y bandwidth cmap minval maxval n ax kwargs s).1)) ≤ 1
  ∧ ∀ h,
      (plot_density_scatter x y bandwidth cmap minval maxval n ax kwargs s).2 = inr h →
      ∃ earlier a xs ys d c,
        new_events s
          (plot_density_scatter x y bandwidth cmap minval maxval n ax kwargs s).1
        = earlier ++ [CallScatter a xs ys d c
                        (setdefault "edgecolor" (PyStr "None") kwargs)]
        ∧ List.filter is_scatter earlier = [].
Proof.
  destruct (plot_density_scatter_events x y bandwidth cmap minval maxval n ax kwargs s)
    as (before & gca_events & scatter_events & Ht & Hf & Hg & Hs).
  rewrite (new_events_app _ _ _ Ht).
  assert (Hearlier : List.filter is_scatter (before ++ gca_events) = []).
  { rewrite List.filter_app, (untouched_no_scatter _ Hf).
    by destruct Hg as [->|[-> _]]. }
  split.
  - rewrite app_assoc, List.filter_app, Hearlier.
    destruct Hs as [[-> _]|(a & xs & ys & d & c & -> & _)]; simpl; lia.
  - intros h Hh. destruct Hs as [[_ Hno]|(a & xs & ys & d & c & -> & _)];
      [by apply Hno in Hh|].
    exists (before ++ gca_events), a, xs, ys, d, c. by rewrite <- app_assoc.
Qed.

(** X10: called with the defaults of its signature,
    [plot_density_scatter(x, y)] raises a [ValueError] exactly when the
    two arrays differ in length or hold fewer than two points. *)
Theorem plot_density_scatter_defaults x y s :
  raises_ValueError
    (plot_density_scatter x y default_bandwidth default_cmap default_minval
       default_maxval default_n default_ax no_options s)
  ↔ length x ≠ length y ∨ length x < 2.
Proof.
  split.
  - intros [[?|[?|Hb]]|Hr]%plot_density_scatter_ValueError_cases; auto; done.
  - intros Hrej.
    destruct (calculate_density_rejected_raises x y default_bandwidth s) as [why H].
    { destruct Hrej; [by left|by right; left]. }
    exists why.
    by rewrite (plot_density_scatter_estimate_fails _ _ _ _ _ _ _ _ _ _ _ _ H).
Qed.

(** X11: when the estimator gives one non-NaN density per cleaned
    point, [argsort] sorts them, the colormap is truncated and the
    options hold neither [c] nor [cmap], [scatter] receives the points in
    non-decreasing order of density, each with its own density as colour:
    the densest points are drawn last. *)
Theorem plot_density_scatter_densest_last x y bandwidth cmap minval maxval n ax kwargs
    s w z s2 c :
  length x = length y → 2 ≤ length x → bandwidth_rejected bandwidth = false →
  gaussian_kde (cleaned x y).1 (cleaned x y).2 bandwidth (world s) = (w, inr z) →
  length z = length (cleaned x y).1 →
  Forall (λ v, isnan v = false) z →
  sorts z (argsort z) →
  truncate_colormap cmap minval maxval n
    (State w (trace s ++ cleaning_warnings x y
                ++ [CallKde (cleaned x y).1 (cleaned x y).2 bandwidth]))
  = (s2, inr c) →
  kwargs !! "c" = None → kwargs !! "cmap" = None →
  ∃ x_sorted y_sorted density,
    CallScatter (surface ax s2).2 x_sorted y_sorted density c
      (setdefault "edgecolor" (PyStr "None") kwargs)
      ∈ trace (plot_density_scatter x y bandwidth cmap minval maxval n ax kwargs s).1
    ∧ non_decreasing density
    ∧ zip x_sorted (zip y_sorted density)
        ≡ₚ zip (cleaned x y).1 (zip (cleaned x y).2 z).
Proof.
  intros Hxy Hlen Hb Hkde Hz Hnan Hsorts H2 Hc Hcmap.
  pose proof (calculate_density_accepted x y bandwidth s Hxy Hlen Hb) as H1.
  destruct (cleaned_lengths x y Hxy) as (Hcy & _ & _).
  destruct (cleaned x y) as [cx cy] eqn:Hcl. simpl in *. rewrite Hkde in H1.
  destruct (reordered_sorts cx cy z) as (xs & ys & d & Hre & _ & _ & _ & Hs & Hp & Hp');
    [congruence..|done|].
  rewrite Hre in H1. exists xs, ys, d.
  rewrite (plot_density_scatter_draws _ _ _ _ _ _ _ ax kwargs _ _ _ _ _ _ _ H1 H2).
  split; [|split; [|done]].
  - unfold scatter_call. rewrite !setdefault_lookup_ne, Hc, Hcmap by done.
    rewrite !bool_decide_eq_false_2 by (by intros [? ?]).
    unfold call. destruct (scatter _ _ _ _ _ _ _). simpl. set_solver.
  - apply sorted_non_decreasing; [|done].
    eapply Permutation_Forall; [symmetry; apply Hp|done].
Qed.

(** X12: an exception raised inside a collaborator comes out of
    [plot_density_scatter] as it is, and stops the call there: after a
    failing estimate the registry is not asked and nothing is drawn;
    after a failing registry nothing is drawn; a failing [scatter] is
    the last event of the call. *)
Theorem plot_density_scatter_collaborator_failures x y bandwidth cmap minval maxval n
    ax kwargs s :
  (∀ w e,
     length x = length y → 2 ≤ length x → bandwidth_rejected bandwidth = false →
     gaussian_kde (cleaned x y).1 (cleaned x y).2 bandwidth (world s) = (w, inl e) →
     plot_density_scatter x y bandwidth cmap minval maxval n ax kwargs s
     = (State w (trace s ++ cleaning_warnings x y
                   ++ [CallKde (cleaned x y).1 (cleaned x y).2 bandwidth]),
        inl (Raised e)))
  ∧ (∀ s1 v name w e,
       cmap = ByName name →
       calculate_density x y bandwidth s = (s1, inr v) →
       get_cmap name (world s1) = (w, inl e) →
       plot_density_scatter x y bandwidth cmap minval maxval n ax kwargs s
       = (State w (trace s1 ++ [CallGetCmap name]), inl (Raised e)))
  ∧ (∀ s1 x_sorted y_sorted density s2 c w e,
       calculate_density x y bandwidth s = (s1, inr (x_sorted, y_sorted, density)) →
       truncate_colormap cmap minval maxval n s1 = (s2, inr c) →
       kwargs !! "c" = None → kwargs !! "cmap" = None →
       scatter (surface ax s2).2 x_sorted y_sorted density c
         (setdefault "edgecolor" (PyStr "None") kwargs) (world (surface ax s2).1)
       = (w, inl e) →
       plot_density_scatter x y bandwidth cmap minval maxval n ax kwargs s
       = (State w (trace (surface ax s2).1
                     ++ [CallScatter (surface ax s2).2 x_sorted y_sorted density c
                           (setdefault "edgecolor" (PyStr "None") kwargs)]),
          inl (Raised e))).
Proof.
  split; [|split].
  - intros w e Hxy Hlen Hb Hkde.
    apply plot_density_scatter_estimate_fails.
    rewrite calculate_density_accepted by done.
    destruct (cleaned x y) as [cx cy]. simpl in *. by rewrite Hkde.
  - intros s1 v name w e -> H1 Hget.
    apply (plot_density_scatter_truncate_fails _ _ _ _ _ _ _ _ _ _ _ _ _ _ H1).
    rewrite truncate_colormap_by_name. by rewrite Hget.
  - intros s1 xs ys d s2 c w e H1 H2 Hc Hcmap Hsc.
    rewrite (plot_density_scatter_draws _ _ _ _ _ _ _ ax kwargs _ _ _ _ _ _ _ H1 H2).
    unfold scatter_call. rewrite !setdefault_lookup_ne, Hc, Hcmap by done.
    rewrite !bool_decide_eq_false_2 by (by intros [? ?]).
    unfold call. by rewrite Hsc.
Qed.

End Further_plot.

(** ** The further properties on concrete calls *)

Section Further_runs.
Import Demo.

Lemma calculate_density_returns_input_points_witness :
  length [two; one; one] = length [one; two; two]
  ∧ length [two; one; one] = length [one; two; two]
  ∧ Forall (λ p, p ∈ zip [one; two; one; nan] [one; two; one; one]
                 ∧ isfinite p.1 = true ∧ isfinite p.2 = true)
      (zip [two; one; one] [two; one; one])
  ∧ ∃ z, (gaussian_kde (cleaned [one; two; one; nan] [one; two; one; one]).1
            (cleaned [one; two; one; nan] [one; two; one; one]).2 None (world s0)).2
         = inr z
         ∧ Forall (λ t, t ∈ zip (cleaned [one; two; one; nan] [one; two; one; one]).1
                          (zip (cleaned [one; two; one; nan] [one; two; one; one]).2 z))
             (zip [two; one; one] (zip [two; one; one] [one; two; two])).
Proof.
  apply (calculate_density_returns_input_points
           [one; two; one; nan] [one; two; one; one] None s0
           (after [Warn "Removing 1 points with NaN or infinite values";
                   CallKde [one; two; one] [one; two; one] None])).
  reflexivity.
Defined.

Lemma calculate_density_again_witness :
  trace (calculate_density [two; one; one] [two; one; one] (Some f0_5) s0).1
  = trace s0 ++ [CallKde [two; one; one] [two; one; one] (Some f0_5)].
Proof.
  apply (calculate_density_again
           [one; two; one; nan] [one; two; one; one] None s0
           (after [Warn "Removing 1 points with NaN or infinite values";
                   CallKde [one; two; one] [one; two; one] None])
           [two; one; one] [two; one; one] [one; two; two] (Some f0_5) s0).
  - reflexivity.
  - simpl; lia.
  - reflexivity.
Defined.

Lemma calculate_density_bandwidth_nan_witness :
  (raises_ValueError (calculate_density [one; two] [one; two] (Some nan) s0)
   ↔ nonpositive nan = true)
  ∧ (isnan nan = true →
     CallKde (cleaned [one; two] [one; two]).1 (cleaned [one; two] [one; two]).2 (Some nan)
       ∈ trace (calculate_density [one; two] [one; two] (Some nan) s0).1).
Proof.
  apply (calculate_density_bandwidth_nan [one; two] [one; two] nan s0).
  - reflexivity.
  - simpl; lia.
Defined.

Lemma truncate_colormap_nan_bound_witness :
  truncate_colormap (ByName "Reds") nan f0_9 256 s0
  = (after [CallGetCmap "Reds"], inl (ValueError (BetweenZeroAndOne nan f0_9))).
Proof.
  apply (truncate_colormap_nan_bound (ByName "Reds") nan f0_9 256 s0 (Registered "Reds")).
  - reflexivity.
  - left. reflexivity.
Defined.

Lemma truncated_name_two_decimals_witness :
  ∃ a b, truncated_name "Reds" f0_4 f0_9
         = "truncated(" +:+ "Reds" +:+ "," +:+ a +:+ "," +:+ b +:+ ")"
         ∧ two_decimals a ∧ two_decimals b.
Proof. apply (truncated_name_two_decimals "Reds" f0_4 f0_9). reflexivity. Defined.

Lemma plot_density_scatter_ValueError_origin_witness :
  ∃ why, plot_density_scatter [one] [one] None (ByName "Reds") f0_4 f0_9 256 None ∅ s0
         = (s0, inl (ValueError why)).
Proof.
  apply (proj2 (plot_density_scatter_ValueError_origin
                  [one] [one] None (ByName "Reds") f0_4 f0_9 256 None ∅ s0)).
  right; left. simpl; lia.
Defined.

Lemma plot_density_scatter_estimates_before_range_witness :
  CallKde (cleaned [one; two] [one; two]).1 (cleaned [one; two] [one; two]).2 None
    ∈ trace (plot_density_scatter [one; two] [one; two] None
               (ByObject (Registered "Reds")) f0_9 f0_4 256 None ∅ s0).1
  ∧ plot_density_scatter [one; two] [one; two] None
      (ByObject (Registered "Reds")) f0_9 f0_4 256 None ∅ s0
    = (after [CallKde [one; two] [one; two] None],
       inl (ValueError (range_error f0_9 f0_4))).
Proof.
  pose proof (plot_density_scatter_estimates_before_range
                [one; two] [one; two] None (ByObject (Registered "Reds"))
                f0_9 f0_4 256 None ∅ s0
                ltac:(reflexivity) ltac:(simpl; lia) ltac:(reflexivity)
                ltac:(reflexivity)) as (Hcall & _ & Hvalue).
  split; [exact Hcall|].
  apply (Hvalue (Registered "Reds") (after [CallKde [one; two] [one; two] None])
           ([one; two], [one; two], [one; one])); reflexivity.
Defined.

Lemma plot_density_scatter_on_given_axes_witness :
  CallGca ∉ new_events s0
    (plot_density_scatter [one; two] [one; two] None (ByName "Reds") f0_4 f0_9 2
       (Some (7 : @Axes demo)) ∅ s0).1.
Proof.
  apply (proj1 (plot_density_scatter_on_given_axes
                  [one; two] [one; two] None (ByName "Reds") f0_4 f0_9 2 (7 : @Axes demo) ∅ s0)).
Defined.

Lemma plot_density_scatter_one_layer_witness :
  ∃ earlier a xs ys d c,
    new_events s0
      (plot_density_scatter [one; two] [one; two] None (ByName "Reds") f0_4 f0_9 2
         None ∅ s0).1
    = earlier ++ [CallScatter a xs ys d c (setdefault "edgecolor" (PyStr "None") ∅)]
    ∧ List.filter is_scatter earlier = [].
Proof.
  apply (proj2 (plot_density_scatter_one_layer
                  [one; two] [one; two] None (ByName "Reds") f0_4 f0_9 2 None ∅ s0)
           (0 : @Handle demo)).
  reflexivity.
Defined.

Lemma plot_density_scatter_densest_last_witness :
  ∃ x_sorted y_sorted density,
    CallScatter (0 : @Axes demo) x_sorted y_sorted density
      (Listed "truncated(Reds,0.40,0.90)" [("Reds", f0_4); ("Reds", f0_9)])
      (setdefault "edgecolor" (PyStr "None") ∅)
      ∈ trace (plot_density_scatter [one; two; one; nan] [one; two; one; one] None
                 (ByName "Reds") f0_4 f0_9 2 None ∅ s0).1
    ∧ non_decreasing density
    ∧ zip x_sorted (zip y_sorted density)
        ≡ₚ zip [one; two; one] (zip [one; two; one] [two; one; two]).
Proof.
  apply (plot_density_scatter_densest_last
           [one; two; one; nan] [one; two; one; one] None (ByName "Reds") f0_4 f0_9 2
           None ∅ s0 (0 : @World demo) [two; one; two]
           (after [Warn "Removing 1 points with NaN or infinite values";
                   CallKde [one; two; one] [one; two; one] None; CallGetCmap "Reds"])
           (Listed "truncated(Reds,0.40,0.90)" [("Reds", f0_4); ("Reds", f0_9)])).
  - reflexivity.
  - simpl; lia.
  - reflexivity.
  - reflexivity.
  - reflexivity.
  - by repeat constructor.
  - split.
    + change ([1; 0; 2] ≡ₚ [0; 1; 2]). apply perm_swap.
    + exists [one; two; two]. split; [reflexivity|].
      repeat (constructor; [|by repeat constructor]). constructor.
  - reflexivity.
  - reflexivity.
  - reflexivity.
Defined.

Lemma plot_density_scatter_collaborator_failures_witness :
  plot_density_scatter [nan; nan] [one; inf] None (ByName "Reds") f0_4 f0_9 256 None ∅ s0
  = (after [Warn "Removing 2 points with NaN or infinite values"; CallKde [] [] None],
     inl (Raised "LinAlgError"))
  ∧ plot_density_scatter [one; two] [one; two] None (ByName "nope") f0_4 f0_9 256 None ∅ s0
    = (after [CallKde [one; two] [one; two] None; CallGetCmap "nope"],
       inl (Raised "ValueError: not a valid value for cmap")).
Proof.
  split.
  - apply (proj1 (plot_density_scatter_collaborator_failures
                    [nan; nan] [one; inf] None (ByName "Reds") f0_4 f0_9 256 None ∅ s0)
             (0 : @World demo) "LinAlgError").
    + reflexivity.
    + simpl; lia.
    + reflexivity.
    + reflexivity.
  - apply (proj1 (proj2 (plot_density_scatter_collaborator_failures
                           [one; two] [one; two] None (ByName "nope")
                           f0_4 f0_9 256 None ∅ s0))
             (after [CallKde [one; two] [one; two] None])
             ([one; two], [one; two], [one; one]) "nope" (0 : @World demo)).
    + reflexivity.
    + reflexivity.
    + reflexivity.
Defined.

End Further_runs.
